(** * Verification of the Telegram video-bot front end (railway_bot.py)

    The development embeds the rate limiter, the input parser and the two
    asynchronous handlers of [railway_bot.py] and settles the properties the
    specification states about them.

    Conventions of the embedding.
    - A Python [str] is a [string]: a sequence of characters with code points
      below 256.  [str.lower] and the whitespace test behind [str.strip] are
      written out for that range as CPython computes them.
    - [datetime] values are integer counts of microseconds ([Z]), which is
      the resolution of Python's [datetime] and [timedelta]; comparisons of
      [timedelta]s are exact integer comparisons.
    - A Python [float] is the rational number it denotes ([Q]); every
      floating-point operation is the exact operation followed by rounding
      to the nearest binary64 number, ties to even.
    - The dictionaries [BotConfig.USER_COOLDOWNS] and [context.user_data]
      are finite maps. *)

From Stdlib Require Import ZArith List Ascii String Bool Lia.
From Stdlib Require Import QArith Lqa.
From stdpp Require Import gmap strings list fin_maps numbers pretty.

Local Open Scope string_scope.
Local Open Scope Z_scope.

(** ** Exceptions and results *)

Inductive exn : Type :=
  | ValueError (msg : string)
  | FileNotFoundError (path : string)
  | TransportError
  | GeneratorError (msg : string).

Inductive result (A : Type) : Type :=
  | Ok (a : A)
  | Raise (e : exn).
Arguments Ok {A} a.
Arguments Raise {A} e.

Definition is_ok {A} (r : result A) : bool :=
  match r with Ok _ => true | Raise _ => false end.

(** ** Python string primitives *)

Module PyStr.

Definition code (c : ascii) : N := N_of_ascii c.

(** [str.isspace] on one character, for code points below 256:
    TAB..CR, FS..US, SPACE, NEL and NBSP. *)
Definition isspace (c : ascii) : bool :=
  let n := code c in
  ((9 <=? n) && (n <=? 13) || (28 <=? n) && (n <=? 32)
   || (n =? 133) || (n =? 160))%N.

(** [str.lower] on one character, for code points below 256: the letters
    A..Z and the upper-case letters of the Latin-1 block move up by 32. *)
Definition lower_char (c : ascii) : ascii :=
  let n := code c in
  if ((65 <=? n) && (n <=? 90)
      || (192 <=? n) && (n <=? 222) && negb (n =? 215))%N
  then ascii_of_N (n + 32) else c.

Fixpoint lower (s : string) : string :=
  match s with
  | EmptyString => EmptyString
  | String c r => String (lower_char c) (lower r)
  end.

Fixpoint lstrip (s : string) : string :=
  match s with
  | EmptyString => EmptyString
  | String c r => if isspace c then lstrip r else s
  end.

Fixpoint rstrip (s : string) : string :=
  match s with
  | EmptyString => EmptyString
  | String c r =>
      match rstrip r with
      | EmptyString => if isspace c then EmptyString else String c EmptyString
      | r' => String c r'
      end
  end.

(** [s.strip()] *)
Definition strip (s : string) : string := rstrip (lstrip s).

(** [bool(s)]: a string is truthy when it is not empty. *)
Definition truthy (s : string) : bool :=
  match s with EmptyString => false | String _ _ => true end.

(** [s.split(sep)] for a one-character separator: every occurrence of
    [sep] cuts; the result is never empty. *)
Fixpoint split (sep : ascii) (s : string) : list string :=
  match s with
  | EmptyString => [EmptyString]
  | String c r =>
      if Ascii.eqb c sep then EmptyString :: split sep r
      else match split sep r with
           | h :: t => String c h :: t
           | [] => [String c EmptyString]
           end
  end.

(** [sub in s] *)
Fixpoint contains (sub s : string) : bool :=
  String.prefix sub s
  || match s with
     | EmptyString => false
     | String _ r => contains sub r
     end.

(** [s.split(sep, 1)] when [sep] occurs in [s]: the text before the first
    [sep] and the text after it; [None] when [sep] does not occur (the
    one-element list on which the source's two-variable unpacking would
    fail). *)
Fixpoint split1 (sep : ascii) (s : string) : option (string * string) :=
  match s with
  | EmptyString => None
  | String c r =>
      if Ascii.eqb c sep then Some (EmptyString, r)
      else match split1 sep r with
           | Some (k, v) => Some (String c k, v)
           | None => None
           end
  end.

End PyStr.

(** ** parse_video_config *)

Record Config : Type := mkConfig {
  topic : string;
  mode : string;
  style : string
}.

Definition default_config : Config :=
  {| topic := ""; mode := "short"; style := "cinematic" |}.

Definition set_topic (v : string) (c : Config) : Config :=
  {| topic := v; mode := mode c; style := style c |}.
Definition set_mode (v : string) (c : Config) : Config :=
  {| topic := topic c; mode := v; style := style c |}.
Definition set_style (v : string) (c : Config) : Config :=
  {| topic := topic c; mode := mode c; style := v |}.

Definition nl : ascii := ascii_of_N 10.
Definition colon : ascii := ":"%char.

(** [[line.strip() for line in text.split('\n') if line.strip()]] *)
Definition config_lines (text : string) : list string :=
  List.map PyStr.strip
    (List.filter (fun line => PyStr.truthy (PyStr.strip line))
       (PyStr.split nl text)).

(** The key and value of a line, as the loop body computes them:
    [None] is the [continue] taken when the line has no colon. *)
Definition key_value (line : string) : option (string * string) :=
  if negb (PyStr.contains ":" line) then None
  else match PyStr.split1 colon line with
       | Some (key, value) =>
           Some (PyStr.lower (PyStr.strip key), PyStr.strip value)
       | None => None
       end.

(** The if/elif chain on the key. *)
Definition apply_key (key value : string) (c : Config) : Config :=
  if PyStr.contains "topik" key || PyStr.contains "topic" key then
    set_topic value c
  else if PyStr.contains "mode" key then
    if PyStr.contains "long" (PyStr.lower value) then set_mode "long" c
    else set_mode "short" c
  else if PyStr.contains "style" key || PyStr.contains "gaya" key then
    set_style value c
  else c.

(** One iteration of the [for line in lines] loop. *)
Definition parse_line (c : Config) (line : string) : Config :=
  match key_value line with
  | None => c
  | Some (key, value) => apply_key key value c
  end.

Definition parse_lines (lines : list string) (c : Config) : Config :=
  List.fold_left parse_line lines c.

Definition parse_video_config (text : string) : result Config :=
  let config := parse_lines (config_lines text) default_config in
  if negb (PyStr.truthy (topic config)) then
    Raise (ValueError "Topik tidak boleh kosong!")
  else Ok config.

Definition text_of_lines (ls : list string) : string :=
  String.concat (String nl EmptyString) ls.

(** ** Key families and the last line of a family *)

Inductive Family : Type := FTopic | FMode | FStyle.

Global Instance Family_eq_dec : EqDecision Family.
Proof. solve_decision. Defined.

(** The three substring tests of the chain, one per family. *)
Definition topic_key (key : string) : bool :=
  PyStr.contains "topik" key || PyStr.contains "topic" key.
Definition mode_key (key : string) : bool := PyStr.contains "mode" key.
Definition style_key (key : string) : bool :=
  PyStr.contains "style" key || PyStr.contains "gaya" key.

Definition key_matches (f : Family) (key : string) : bool :=
  match f with
  | FTopic => topic_key key
  | FMode => mode_key key
  | FStyle => style_key key
  end.

(** The family whose branch the chain takes for a key. *)
Definition family (key : string) : option Family :=
  if topic_key key then Some FTopic
  else if mode_key key then Some FMode
  else if style_key key then Some FStyle
  else None.

Definition in_family (f : Family) (key : string) : bool :=
  bool_decide (family key = Some f).

(** What the mode branch stores for a value. *)
Definition mode_of (value : string) : string :=
  if PyStr.contains "long" (PyStr.lower value) then "long" else "short".

Definition field (f : Family) (c : Config) : string :=
  match f with
  | FTopic => topic c
  | FMode => mode c
  | FStyle => style c
  end.

(** What the branch of family [f] stores for a value. *)
Definition stored (f : Family) (value : string) : string :=
  match f with
  | FMode => mode_of value
  | _ => value
  end.

Definition set_field (f : Family) (value : string) (c : Config) : Config :=
  match f with
  | FTopic => set_topic value c
  | FMode => set_mode (mode_of value) c
  | FStyle => set_style value c
  end.

(** The values of the lines whose key satisfies [P], in line order. *)
Definition values_of (P : string -> bool) (lines : list string)
  : list string :=
  omap (fun line =>
          match key_value line with
          | Some (key, value) => if P key then Some value else None
          | None => None
          end) lines.

(** The family of a line: that of its key, when it has a colon. *)
Definition line_family (line : string) : option Family :=
  match key_value line with
  | Some (key, _) => family key
  | None => None
  end.

(** Some line has a key with "topik" or "topic" in it and a value that is
    not empty. *)
Definition has_topic_line (lines : list string) : bool :=
  existsb (fun line =>
             match key_value line with
             | Some (key, value) => topic_key key && PyStr.truthy value
             | None => false
             end) lines.

(** The keys the mode branch is taken for: "mode" in the key, and neither
    "topik" nor "topic". *)
Definition mode_branch_key (key : string) : bool :=
  mode_key key && negb (topic_key key).

(** The number of fields on which two configurations differ. *)
Definition changed_fields (c c' : Config) : nat :=
  ((if String.eqb (topic c) (topic c') then 0 else 1)
   + (if String.eqb (mode c) (mode c') then 0 else 1)
   + (if String.eqb (style c) (style c') then 0 else 1))%nat.

(** ** Python floats *)

Module PyFloat.

(** The integer nearest to [n / d], for [d] positive; a tie goes to the
    even neighbour. *)
Definition rne (n d : Z) : Z :=
  let k := n / d in
  let r := n mod d in
  if 2 * r <? d then k
  else if d <? 2 * r then k + 1
  else if Z.even k then k else k + 1.

(** The exponent [e] of the last place of [a / d], for [a] and [d]
    positive: the one with [2^52 <= (a / d) / 2^e < 2^53]. *)
Definition ulp_exponent (a d : Z) : Z :=
  let e0 := Z.log2 a - Z.log2 d - 53 in
  if 2 ^ 53 * (d * 2 ^ Z.max 0 e0) <=? a * 2 ^ Z.max 0 (- e0)
  then e0 + 1 else e0.

(** Rounding to the nearest number with a significand of 53 bits, ties to
    even.  The exponent is not bounded: binary64 agrees with this on the
    magnitudes between 2^-1022 and 2^1024, and a [timedelta], which spans
    at most 10^9 days, gives no other. *)
Definition round (q : Q) : Q :=
  let n := Qnum q in
  let d := Zpos (Qden q) in
  if n =? 0 then 0%Q
  else
    let a := Z.abs n in
    let e := ulp_exponent a d in
    let m := rne (a * 2 ^ Z.max 0 (- e)) (d * 2 ^ Z.max 0 e) in
    (Z.sgn n * m * 2 ^ Z.max 0 e) # Z.to_pos (2 ^ Z.max 0 (- e)).

(** [float(z)] *)
Definition of_int (z : Z) : Q := round (inject_Z z).
(** [a / b] on two integers, [b] positive: the quotient, rounded once. *)
Definition truediv (a b : Z) : Q := round (a # Z.to_pos b).
(** [x / y] and [x - y] on floats. *)
Definition div (x y : Q) : Q := round (x / y).
Definition sub (x y : Q) : Q := round (x - y).

(** The figure in tenths that [format(x, '.1f')] prints: [10 * x] rounded
    to the nearest integer, ties to even. *)
Definition tenths (x : Q) : Z := rne (10 * Qnum x) (Zpos (Qden x)).

(** A count of tenths that is not negative, as printed: "23.0" for 230. *)
Definition render_tenths (t : Z) : string :=
  pretty (t / 10) ++ "." ++ pretty (t mod 10).

(** [format(x, '.1f')], the text of [{x:.1f}] in an f-string. *)
Definition format_1f (x : Q) : string :=
  (if Qnum x <? 0 then "-" else "") ++ render_tenths (Z.abs (tenths x)).

(** The factors between which rounding keeps a number: 1 - 2^-53 and
    1 + 2^-53. *)
Definition round_lo : Q := 9007199254740991 # 9007199254740992.
Definition round_hi : Q := 9007199254740993 # 9007199254740992.

End PyFloat.

(** ** BotConfig and the rate limiter *)

(** [BotConfig.COOLDOWN_HOURS] *)
Definition COOLDOWN_HOURS : Z := 24.

(** Microseconds in [timedelta(hours=h)]. *)
Definition timedelta_hours (h : Z) : Z := h * 3600000000.

(** [td.total_seconds()]: the float nearest to the microsecond count over
    one million (CPython divides the two integers). *)
Definition total_seconds (td : Z) : Q := PyFloat.truediv td 1000000.

(** [BotConfig.COOLDOWN_HOURS - (time_passed.total_seconds() / 3600)], a
    float: the two integers are converted, the division and the
    subtraction round. *)
Definition hours_left (time_passed : Z) : Q :=
  PyFloat.sub (PyFloat.of_int COOLDOWN_HOURS)
    (PyFloat.div (total_seconds time_passed) (PyFloat.of_int 3600)).

(** The second component of [can_generate]'s result: the empty string, or
    the waiting notice, whose only variable part is the figure, the text of
    [{hours_left:.1f}]. *)
Inductive Reason : Type :=
  | NoReason
  | WaitNotice (figure : string).

(** The remaining hours in exact arithmetic: 24 minus the elapsed hours. *)
Definition exact_hours_left (time_passed : Z) : Q :=
  inject_Z COOLDOWN_HOURS - (time_passed # 3600000000).

(** A bound on what the three roundings of [hours_left] can add up to:
    2^-51 times (24 + the elapsed hours, taken positive). *)
Definition float_slack (time_passed : Z) : Q :=
  (24 + (Z.abs time_passed # 3600000000)) * (1 # 2251799813685248).

(** [str(user_id) in BotConfig.ADMIN_IDS]; [pretty] is the decimal
    rendering of an integer, as [str] gives it. *)
Definition is_admin (ADMIN_IDS : list string) (user_id : Z) : bool :=
  bool_decide (pretty user_id ∈ ADMIN_IDS).

(** [RateLimiter.can_generate], with [datetime.now()] as [now]. *)
Definition can_generate (ADMIN_IDS : list string)
    (USER_COOLDOWNS : gmap Z Z) (now : Z) (user_id : Z) : bool * Reason :=
  if is_admin ADMIN_IDS user_id then (true, NoReason)
  else
    match USER_COOLDOWNS !! user_id with
    | Some last_time =>
        let time_passed := now - last_time in
        if bool_decide (time_passed < timedelta_hours COOLDOWN_HOURS) then
          let hours_left := hours_left time_passed in
          (false, WaitNotice (PyFloat.format_1f hours_left))
        else (true, NoReason)
    | None => (true, NoReason)
    end.

(** [RateLimiter.mark_generated], with [datetime.now()] as [now]. *)
Definition mark_generated (USER_COOLDOWNS : gmap Z Z) (now : Z)
    (user_id : Z) : gmap Z Z :=
  <[user_id := now]> USER_COOLDOWNS.

(** ** The world the handlers run in *)

(** The bundle the generator returns: [result['metadata']['title']] and
    [result['video_path']]. *)
Record GenerationResult : Type := mkResult {
  title : string;
  video_path : string
}.

(** The texts the handlers send, by the place that builds them. *)
Inductive Message : Type :=
  | MsgCooldown (r : Reason)
  | MsgInstruction
  | MsgFormatError (e : exn)
  | MsgConfirm (c : Config)
  | MsgProgress
  | MsgSuccess (title path duration : string) (size : Z)
  | MsgSending
  | MsgTooLarge
  | MsgFailed (e : exn).

(** The calls the handlers make on their collaborators, in order.  A
    transport call is recorded with its outcome: [true] when it returned,
    [false] when it raised. *)
Inductive Event : Type :=
  | EvReplyText (m : Message) (delivered : bool)
  | EvReplyVideo (path caption : string) (delivered : bool)
  | EvGenerate (topic mode style : string) (returned : bool)
  | EvMarkGenerated (user_id : Z)
  | EvUnlink (path : string)
  | EvLogError (e : exn).

(** The state the handlers read and write.
    - [USER_COOLDOWNS] is the class attribute of [BotConfig].
    - [user_data] is [context.user_data], the dictionary the framework keeps
      for the user whose update is being handled.
    - [files] maps the paths that exist to their size in bytes.
    - [clock] is what [datetime.now()] returns.
    - [transport] scripts the outcomes of the coming [reply_text] and
      [reply_video] calls: [false] makes the call raise; once the script is
      used up every call returns.
    - [tasks] holds the arguments of the tasks given to
      [asyncio.create_task].
    - [events] is the record of the calls made so far. *)
Record World : Type := mkWorld {
  USER_COOLDOWNS : gmap Z Z;
  user_data : gmap string bool;
  files : gmap string Z;
  clock : Z;
  transport : list bool;
  tasks : list (Config * Z);
  events : list Event
}.

Definition set_cooldowns (m : gmap Z Z) (w : World) : World :=
  mkWorld m (user_data w) (files w) (clock w) (transport w) (tasks w)
    (events w).
Definition set_user_data (m : gmap string bool) (w : World) : World :=
  mkWorld (USER_COOLDOWNS w) m (files w) (clock w) (transport w) (tasks w)
    (events w).
Definition set_files_clock (fc : gmap string Z * Z) (w : World) : World :=
  mkWorld (USER_COOLDOWNS w) (user_data w) (fst fc) (snd fc) (transport w)
    (tasks w) (events w).
Definition set_files (m : gmap string Z) (w : World) : World :=
  set_files_clock (m, clock w) w.
Definition set_transport (t : list bool) (w : World) : World :=
  mkWorld (USER_COOLDOWNS w) (user_data w) (files w) (clock w) t (tasks w)
    (events w).
Definition add_task (t : Config * Z) (w : World) : World :=
  mkWorld (USER_COOLDOWNS w) (user_data w) (files w) (clock w) (transport w)
    (tasks w ++ [t]) (events w).
Definition add_event (e : Event) (w : World) : World :=
  mkWorld (USER_COOLDOWNS w) (user_data w) (files w) (clock w) (transport w)
    (tasks w) (events w ++ [e]).

(** Computations that read and write the world and may raise. *)
Definition M (A : Type) : Type := World -> result A * World.

Global Instance M_ret : MRet M := fun A (a : A) w => (Ok a, w).
Global Instance M_bind : MBind M := fun A B (f : A -> M B) (m : M A) w =>
  match m w with
  | (Ok a, w') => f a w'
  | (Raise e, w') => (Raise e, w')
  end.

Definition raise {A} (e : exn) : M A := fun w => (Raise e, w).

(** [try: body  except Exception as e: handler(e)] *)
Definition try_except {A} (body : M A) (handler : exn -> M A) : M A :=
  fun w =>
    match body w with
    | (Ok a, w') => (Ok a, w')
    | (Raise e, w') => handler e w'
    end.

(** Append a call to the record. *)
Definition record (e : Event) : M unit := fun w => (Ok (), add_event e w).

(** The outcome of the next transport call. *)
Definition next_outcome : M bool := fun w =>
  match transport w with
  | [] => (Ok true, w)
  | o :: rest => (Ok o, set_transport rest w)
  end.

(** [await update.message.reply_text(m)] *)
Definition reply_text (m : Message) : M unit :=
  next_outcome ≫= fun o : bool =>
  record (EvReplyText m o) ;;
  if o then mret () else raise TransportError.

(** [await update.message.reply_video(video=..., caption=...)] *)
Definition reply_video (path caption : string) : M unit :=
  next_outcome ≫= fun o : bool =>
  record (EvReplyVideo path caption o) ;;
  if o then mret () else raise TransportError.

(** [path.stat().st_size] *)
Definition stat_size (path : string) : M Z := fun w =>
  match files w !! path with
  | Some size => (Ok size, w)
  | None => (Raise (FileNotFoundError path), w)
  end.

(** [with open(path, 'rb') as video_file: body]; closing the handle leaves
    the file in place. *)
Definition with_open_rb {A} (path : string) (body : M A) : M A := fun w =>
  match files w !! path with
  | Some _ => body w
  | None => (Raise (FileNotFoundError path), w)
  end.

(** [path.unlink(missing_ok=True)] *)
Definition unlink (path : string) : M unit := fun w =>
  (Ok (), add_event (EvUnlink path) (set_files (delete path (files w)) w)).

(** [Logger.error(...)] *)
Definition log_error (e : exn) : M unit := record (EvLogError e).

(** The external generator: from the request, the files and the time at
    the call, a result bundle or an exception, and the files and the time
    when it is done. *)
Definition Generator : Type :=
  string -> string -> string -> gmap string Z * Z ->
  result GenerationResult * (gmap string Z * Z).

(** [await generator.generate(topic=..., mode=..., style=...)] *)
Definition call_generate (generator : Generator)
    (topic mode style : string) : M GenerationResult := fun w =>
  match generator topic mode style (files w, clock w) with
  | (Ok r, fc) =>
      (Ok r, add_event (EvGenerate topic mode style true)
               (set_files_clock fc w))
  | (Raise e, fc) =>
      (Raise e, add_event (EvGenerate topic mode style false)
                  (set_files_clock fc w))
  end.

(** [RateLimiter.mark_generated(user_id)] on the world. *)
Definition do_mark_generated (user_id : Z) : M unit := fun w =>
  (Ok (), add_event (EvMarkGenerated user_id)
            (set_cooldowns
               (mark_generated (USER_COOLDOWNS w) (clock w) user_id) w)).

(** The delivery ceiling: [st_size / 1024 / 1024 < 50].  Dividing an
    integer below 2^53 by 1024 twice is exact in binary floating point, and
    the division is monotone above, so the test is the integer comparison
    with 50 * 1024 * 1024 bytes. *)
Definition SIZE_LIMIT : Z := 50 * 1024 * 1024.

(** ** The handlers *)

Record Update : Type := mkUpdate {
  effective_user_id : Z;
  message_text : string
}.

Definition FLAG : string := "waiting_for_input".

(** [context.user_data.get('waiting_for_input', False)] *)
Definition waiting_for_input (w : World) : bool :=
  default false (user_data w !! FLAG).

Definition set_waiting (b : bool) : M unit := fun w =>
  (Ok (), set_user_data (<[FLAG := b]> (user_data w)) w).

(** [asyncio.create_task(generate_video_task(update, context, config,
    user_id))] *)
Definition create_task (t : Config * Z) : M unit := fun w =>
  (Ok (), add_task t w).

(** [buatvideo] *)
Definition buatvideo (ADMIN_IDS : list string) (update : Update) : M unit :=
  fun w =>
    let user_id := effective_user_id update in
    let '(can, cooldown_msg) :=
      can_generate ADMIN_IDS (USER_COOLDOWNS w) (clock w) user_id in
    if negb can then reply_text (MsgCooldown cooldown_msg) w
    else (reply_text MsgInstruction ;; set_waiting true) w.

(** [generate_video_task] *)
Definition generate_video_task (generator : Generator) (config : Config)
    (user_id : Z) : M unit :=
  try_except
    (reply_text MsgProgress ;;
     result ← call_generate generator (topic config) (mode config)
                (style config);
     do_mark_generated user_id ;;
     size ← stat_size (video_path result);
     reply_text
       (MsgSuccess (title result) (video_path result)
          (if String.eqb (mode config) "short" then "40" else "240") size) ;;
     file_size ← stat_size (video_path result);
     (if bool_decide (file_size < SIZE_LIMIT) then
        reply_text MsgSending ;;
        with_open_rb (video_path result)
          (reply_video (video_path result) (title result))
      else reply_text MsgTooLarge) ;;
     unlink (video_path result))
    (fun e =>
       log_error e ;;
       reply_text (MsgFailed e)).

(** [handle_input]; the task handed to [asyncio.create_task] is queued in
    [tasks]. *)
Definition handle_input (update : Update) : M unit := fun w =>
  if negb (waiting_for_input w) then (Ok (), w)
  else
    let user_id := effective_user_id update in
    let text := message_text update in
    match parse_video_config text with
    | Raise e => reply_text (MsgFormatError e) w
    | Ok config =>
        (set_waiting false ;;
         reply_text (MsgConfirm config) ;;
         create_task (config, user_id)) w
    end.

(** Counting calls in the record. *)
Definition is_mark (user_id : Z) (e : Event) : bool :=
  match e with
  | EvMarkGenerated u => bool_decide (u = user_id)
  | _ => false
  end.
Definition is_unlink (path : string) (e : Event) : bool :=
  match e with
  | EvUnlink p => String.eqb p path
  | _ => false
  end.
Definition is_too_large (e : Event) : bool :=
  match e with EvReplyText MsgTooLarge true => true | _ => false end.

Definition count (P : Event -> bool) (w : World) : nat :=
  List.length (List.filter P (events w)).

(** The first [n] coming transport calls return. *)
Definition delivers (n : nat) (w : World) : bool :=
  forallb id (take n (transport w)).

(** What a run may change of a user's quota: the cooldown map, and the
    number of [mark_generated] calls made for the user. *)
Definition quota (user_id : Z) (w : World) : gmap Z Z * nat :=
  (USER_COOLDOWNS w, count (is_mark user_id) w).

(** A computation that leaves the quota of [user_id] alone. *)
Definition neutral {A} (user_id : Z) (m : M A) : Prop :=
  forall w, quota user_id (snd (m w)) = quota user_id w.

(** The outcome of the [i]-th coming transport call, counted from 0. *)
Definition outcome (i : nat) (w : World) : bool := nth i (transport w) true.

(** ** Collaborators and worlds used in the examples *)

(** [VideoGenerator.generate] of main.py: the title is the topic, the path
    is "dummy.mp4", and no file is written. *)
Definition VideoGenerator_generate : Generator :=
  fun topic mode style fc =>
    (Ok {| title := topic; video_path := "dummy.mp4" |}, fc).

(** A generator whose [generate] raises. *)
Definition failing_generator (msg : string) : Generator :=
  fun topic mode style fc => (Raise (GeneratorError msg), fc).

(** A world at time 0 with no cooldown recorded, in which "dummy.mp4"
    exists with the given size, and with the given transport script. *)
Definition world_with_file (size : Z) (script : list bool) : World :=
  {| USER_COOLDOWNS := ∅; user_data := ∅;
     files := {["dummy.mp4" := size]}; clock := 0; transport := script;
     tasks := []; events := [] |}.

(** A fresh process at time 0: nothing recorded, no file, every transport
    call returns. *)
Definition idle_world : World :=
  {| USER_COOLDOWNS := ∅; user_data := ∅; files := ∅; clock := 0;
     transport := []; tasks := []; events := [] |}.

(** The world after user 7 has sent /buatvideo to a fresh process whose
    allow-list is the one an unset ADMIN_IDS variable gives. *)
Definition awaiting_world : World :=
  snd (buatvideo [""] (mkUpdate 7 "/buatvideo") idle_world).

Definition sample_config : Config :=
  {| topic := "AI"; mode := "long"; style := "cinematic" |}.

(** ** Definitions for the further properties *)

(** [BotConfig.ADMIN_IDS]: [os.getenv("ADMIN_IDS", "").split(",")], from
    the value of the environment variable, [None] when it is not set. *)
Definition ADMIN_IDS_of_env (value : option string) : list string :=
  PyStr.split ","%char (default "" value).

(** [c] occurs in [s]. *)
Fixpoint has_char (c : ascii) (s : string) : bool :=
  match s with
  | EmptyString => false
  | String a r => Ascii.eqb a c || has_char c r
  end.

(** Every character of [s] satisfies [P]. *)
Fixpoint all_chars (P : ascii -> bool) (s : string) : bool :=
  match s with
  | EmptyString => true
  | String a r => P a && all_chars P r
  end.

(** The decimal digits and the minus sign. *)
Definition decimal_char (c : ascii) : bool :=
  let n := PyStr.code c in ((48 <=? n) && (n <=? 57) || (n =? 45))%N.

(** A request in the format that the instruction of [buatvideo] and the
    text of [help_command] show: three lines "Topik: ...", "Mode: ...",
    "Style: ...". *)
Definition request_text (topic mode style : string) : string :=
  text_of_lines ["Topik: " ++ topic; "Mode: " ++ mode; "Style: " ++ style].

(** The line takes one of the three branches of the chain. *)
Definition recognised (line : string) : bool :=
  match line_family line with
  | Some _ => true
  | None => false
  end.

(** The shape every configuration built by the loop has. *)
Definition normalised (c : Config) : Prop :=
  PyStr.strip (topic c) = topic c
  /\ (mode c = "short" \/ mode c = "long")
  /\ PyStr.strip (style c) = style c.

(** A computation that leaves the observation [f] of the world as it is. *)
Definition keeps {X A : Type} (f : World -> X) (m : M A) : Prop :=
  forall w, f (snd (m w)) = f w.

(** The calls made by the steps of [generate_video_task] that come before
    the cleanup: everything but [unlink], the log entry and the failure
    notice. *)
Definition step_event (e : Event) : bool :=
  match e with
  | EvUnlink _ | EvLogError _ | EvReplyText (MsgFailed _) _ => false
  | _ => true
  end.

(** ** Lemmas on the parser *)

Lemma apply_key_family key value c :
  apply_key key value c =
  match family key with
  | Some f => set_field f value c
  | None => c
  end.
Proof.
  unfold apply_key, family, topic_key, mode_key, style_key, mode_of.
  destruct (PyStr.contains "topik" key || PyStr.contains "topic" key);
    [reflexivity|].
  destruct (PyStr.contains "mode" key); simpl.
  - unfold mode_of.
    destruct (PyStr.contains "long" (PyStr.lower value)); reflexivity.
  - destruct (PyStr.contains "style" key || PyStr.contains "gaya" key);
      reflexivity.
Qed.

Lemma field_set_field_same f value c :
  field f (set_field f value c) = stored f value.
Proof. destruct f; reflexivity. Qed.

Lemma field_set_field_other f g value c :
  f <> g -> field f (set_field g value c) = field f c.
Proof. destruct f, g; intros H; try reflexivity; congruence. Qed.

Lemma parse_lines_snoc lines line c :
  parse_lines (lines ++ [line]) c = parse_line (parse_lines lines c) line.
Proof. unfold parse_lines. rewrite fold_left_app. reflexivity. Qed.

Lemma values_of_snoc P lines line :
  values_of P (lines ++ [line]) =
  (values_of P lines ++ values_of P [line])%list.
Proof. unfold values_of. apply omap_app. Qed.

(** The field of a family after the loop is what the last line of that
    family stored, or the initial field when no line is of that family. *)
Lemma field_parse_lines f lines c :
  field f (parse_lines lines c) =
  from_option (stored f) (field f c) (list.last (values_of (in_family f) lines)).
Proof.
  induction lines as [|line lines IH] using rev_ind; [reflexivity|].
  rewrite parse_lines_snoc, values_of_snoc.
  unfold parse_line, values_of at 2. simpl.
  destruct (key_value line) as [[key value]|].
  - rewrite apply_key_family. unfold in_family.
    destruct (family key) as [g|].
    + destruct (decide (g = f)) as [->|Hne].
      * rewrite bool_decide_eq_true_2 by reflexivity.
        rewrite last_snoc. simpl. apply field_set_field_same.
      * rewrite bool_decide_eq_false_2 by congruence.
        rewrite app_nil_r, field_set_field_other by congruence. exact IH.
    + rewrite bool_decide_eq_false_2 by congruence.
      rewrite app_nil_r. exact IH.
  - rewrite app_nil_r. exact IH.
Qed.

Lemma parse_video_config_ok text c :
  parse_video_config text = Ok c ->
  c = parse_lines (config_lines text) default_config /\ topic c <> "".
Proof.
  unfold parse_video_config.
  destruct (topic (parse_lines (config_lines text) default_config)) eqn:E;
    simpl; intros H; [discriminate|].
  injection H as <-. rewrite E. split; [reflexivity | discriminate].
Qed.

Lemma in_family_mode key :
  in_family FMode key = mode_branch_key key.
Proof.
  unfold in_family, family, mode_branch_key.
  destruct (topic_key key), (mode_key key), (style_key key); reflexivity.
Qed.

Lemma in_family_matches f key :
  in_family f key = true -> key_matches f key = true.
Proof.
  unfold in_family, family. intros H. apply bool_decide_eq_true_1 in H.
  destruct (topic_key key) eqn:Ht; [injection H as <-; exact Ht|].
  destruct (mode_key key) eqn:Hm; [injection H as <-; exact Hm|].
  destruct (style_key key) eqn:Hs; [injection H as <-; exact Hs|].
  discriminate.
Qed.

Lemma values_of_cons P line lines :
  values_of P (line :: lines) =
  match key_value line with
  | Some (key, value) =>
      if P key then value :: values_of P lines else values_of P lines
  | None => values_of P lines
  end.
Proof.
  unfold values_of. simpl.
  destruct (key_value line) as [[key value]|]; [|reflexivity].
  destruct (P key); reflexivity.
Qed.

Lemma values_of_nil_mono (P Q : string -> bool) lines :
  (forall key, P key = true -> Q key = true) ->
  values_of Q lines = [] -> values_of P lines = [].
Proof.
  intros HPQ. induction lines as [|line lines IH]; [reflexivity|].
  rewrite !values_of_cons.
  destruct (key_value line) as [[key value]|]; [|exact IH].
  destruct (P key) eqn:HP.
  - rewrite (HPQ key HP). discriminate.
  - destruct (Q key); [discriminate | exact IH].
Qed.

(** ** The rate limiter *)

(** C7. An administrator, a user whose decimal identity is in the
    allow-list, is always allowed, with the empty reason, whatever the
    cooldown map holds and whatever the time is. *)
Theorem can_generate_admin (ADMIN_IDS : list string) (cooldowns : gmap Z Z)
    (now user_id : Z) :
  pretty user_id ∈ ADMIN_IDS ->
  can_generate ADMIN_IDS cooldowns now user_id = (true, NoReason).
Proof.
  intros Hadmin. unfold can_generate, is_admin.
  rewrite bool_decide_eq_true_2 by exact Hadmin. reflexivity.
Qed.

(** An administrator who generated one hour ago is still allowed. *)
Lemma can_generate_admin_witness :
  can_generate ["12"; "7"] {[7 := 0]} 3600000000 7 = (true, NoReason).
Proof.
  apply (can_generate_admin ["12"; "7"] {[7 := 0]} 3600000000 7).
  apply (bool_decide_eq_true_1 (pretty 7 ∈ ["12"; "7"])). reflexivity.
Defined.

(** *** Rounding *)

Lemma rne_spec n d : 0 < d -> - d <= 2 * (PyFloat.rne n d * d - n) <= d.
Proof.
  intros Hd. unfold PyFloat.rne.
  pose proof (Z.div_mod n d ltac:(lia)) as Hdm.
  pose proof (Z.mod_pos_bound n d Hd) as Hr.
  destruct (2 * (n mod d) <? d) eqn:E1; [apply Z.ltb_lt in E1; nia|].
  apply Z.ltb_ge in E1.
  destruct (d <? 2 * (n mod d)) eqn:E2; [apply Z.ltb_lt in E2; nia|].
  apply Z.ltb_ge in E2.
  destruct (Z.even (n / d)); nia.
Qed.

Lemma rne_nonneg n d : 0 < d -> 0 <= n -> 0 <= PyFloat.rne n d.
Proof.
  intros Hd Hn. unfold PyFloat.rne.
  pose proof (Z.div_pos n d Hn Hd) as Hk.
  destruct (2 * (n mod d) <? d); [exact Hk|].
  destruct (d <? 2 * (n mod d)); [lia|].
  destruct (Z.even (n / d)); lia.
Qed.

Lemma pow2_pos k : 0 < 2 ^ Z.max 0 k.
Proof. apply Z.pow_pos_nonneg; lia. Qed.

(** The scaled magnitude is at least 2^52. *)
Lemma ulp_exponent_spec a d :
  0 < a -> 0 < d ->
  2 ^ 52 * (d * 2 ^ Z.max 0 (PyFloat.ulp_exponent a d))
  <= a * 2 ^ Z.max 0 (- PyFloat.ulp_exponent a d).
Proof.
  intros Ha Hd. unfold PyFloat.ulp_exponent.
  set (e0 := Z.log2 a - Z.log2 d - 53).
  destruct (Z.log2_spec a Ha) as [Hla _].
  destruct (Z.log2_spec d Hd) as [_ Hld].
  pose proof (Z.log2_nonneg a) as Hla0.
  pose proof (Z.log2_nonneg d) as Hld0.
  destruct (2 ^ 53 * (d * 2 ^ Z.max 0 e0) <=? a * 2 ^ Z.max 0 (- e0)) eqn:E.
  - apply Z.leb_le in E.
    destruct (Z_lt_le_dec e0 0) as [Hneg|Hpos].
    + rewrite (Z.max_l 0 (e0 + 1)) by lia.
      rewrite (Z.max_r 0 (- (e0 + 1))) by lia.
      rewrite (Z.max_l 0 e0), (Z.max_r 0 (- e0)) in E by lia.
      replace (- e0) with (Z.succ (- (e0 + 1))) in E by lia.
      rewrite Z.pow_succ_r in E by lia.
      change (2 ^ 53) with (2 * 2 ^ 52) in E. simpl (2 ^ 0) in *. lia.
    + rewrite (Z.max_r 0 (e0 + 1)) by lia.
      rewrite (Z.max_l 0 (- (e0 + 1))) by lia.
      rewrite (Z.max_r 0 e0), (Z.max_l 0 (- e0)) in E by lia.
      replace (e0 + 1) with (Z.succ e0) by lia.
      rewrite Z.pow_succ_r by lia.
      change (2 ^ 53) with (2 * 2 ^ 52) in E. simpl (2 ^ 0) in *. lia.
  - clear E.
    destruct (Z_lt_le_dec e0 0) as [Hneg|Hpos].
    + rewrite (Z.max_l 0 e0), (Z.max_r 0 (- e0)) by lia.
      simpl (2 ^ 0).
      assert (H1 : 2 ^ (Z.log2 d + 53) <= a * 2 ^ (- e0)).
      { replace (Z.log2 d + 53) with (Z.log2 a + - e0) by lia.
        rewrite Z.pow_add_r by lia.
        apply Z.mul_le_mono_nonneg_r; [apply Z.pow_nonneg; lia | exact Hla]. }
      assert (H2 : 2 ^ 52 * d < 2 ^ (Z.log2 d + 53)).
      { replace (Z.log2 d + 53) with (52 + Z.succ (Z.log2 d)) by lia.
        rewrite Z.pow_add_r by lia.
        apply Z.mul_lt_mono_pos_l; [reflexivity | exact Hld]. }
      lia.
    + rewrite (Z.max_r 0 e0), (Z.max_l 0 (- e0)) by lia.
      simpl (2 ^ 0).
      assert (H2 : 2 ^ 52 * (d * 2 ^ e0) < 2 ^ Z.log2 a).
      { replace (Z.log2 a) with (52 + (Z.succ (Z.log2 d) + e0)) by lia.
        rewrite (Z.pow_add_r 2 52), (Z.pow_add_r 2 (Z.succ (Z.log2 d)))
          by lia.
        apply Z.mul_lt_mono_pos_l; [reflexivity|].
        apply Z.mul_lt_mono_pos_r; [apply Z.pow_pos_nonneg; lia | exact Hld]. }
      lia.
Qed.

Lemma round_scaled q :
  Qnum q <> 0 ->
  exists m S P,
    0 < S /\ 0 < P
    /\ PyFloat.round q = (Z.sgn (Qnum q) * m * S # Z.to_pos P)
    /\ (2 ^ 53 - 1) * (Z.abs (Qnum q) * P)
       <= 2 ^ 53 * (m * (Zpos (Qden q) * S))
       <= (2 ^ 53 + 1) * (Z.abs (Qnum q) * P).
Proof.
  intros Hn. unfold PyFloat.round.
  destruct (Qnum q =? 0) eqn:E; [apply Z.eqb_eq in E; contradiction|].
  set (a := Z.abs (Qnum q)). set (d := Zpos (Qden q)).
  set (e := PyFloat.ulp_exponent a d).
  set (P := 2 ^ Z.max 0 (- e)). set (S := 2 ^ Z.max 0 e).
  set (m := PyFloat.rne (a * P) (d * S)).
  assert (Ha : 0 < a) by (unfold a; lia).
  assert (Hd : 0 < d) by (unfold d; lia).
  assert (HP : 0 < P) by apply pow2_pos.
  assert (HS : 0 < S) by apply pow2_pos.
  exists m, S, P. split; [exact HS|]. split; [exact HP|].
  split; [reflexivity|].
  pose proof (ulp_exponent_spec a d Ha Hd) as Hscale.
  fold e in Hscale. fold P S in Hscale.
  pose proof (rne_spec (a * P) (d * S) ltac:(lia)) as Hr. fold m in Hr.
  change (2 ^ 53) with 9007199254740992.
  change (2 ^ 52) with 4503599627370496 in Hscale.
  set (N := a * P) in *. set (D := d * S) in *. set (X := m * D) in *.
  lia.
Qed.

Lemma round_zero q : Qnum q = 0 -> PyFloat.round q = 0%Q.
Proof. intros H. unfold PyFloat.round. rewrite H. reflexivity. Qed.

(** Rounding moves a number by at most 2^-53 of itself. *)
Lemma round_bounds q :
  (0 <= q -> q * PyFloat.round_lo <= PyFloat.round q
             <= q * PyFloat.round_hi)%Q
  /\ (q <= 0 -> q * PyFloat.round_hi <= PyFloat.round q
                <= q * PyFloat.round_lo)%Q.
Proof.
  destruct (Z.eq_dec (Qnum q) 0) as [Hz|Hnz].
  - rewrite (round_zero q Hz). destruct q as [n d]. simpl in Hz. subst n.
    unfold Qle, PyFloat.round_lo, PyFloat.round_hi. simpl. lia.
  - destruct (round_scaled q Hnz) as (m & S & P & HS & HP & -> & Hb).
    destruct q as [n d]. cbn [Qnum Qden] in *.
    unfold Qle, PyFloat.round_lo, PyFloat.round_hi. cbn [Qnum Qden Qmult].
    rewrite !Z2Pos.id by exact HP. rewrite !Pos2Z.inj_mul.
    change (2 ^ 53) with 9007199254740992 in Hb.
    set (d' := Z.pos d) in *.
    assert (Hd : 0 < d') by (unfold d'; lia).
    split; intros Hn; rewrite ?Z.mul_1_r in Hn.
    + assert (Hpos : 0 < n) by lia.
      rewrite (Z.sgn_pos n Hpos), (Z.abs_eq n) in * by lia.
      set (N := n * P) in *. set (X := m * (d' * S)) in *.
      replace (n * 9007199254740991 * P) with (9007199254740991 * N)
        by (unfold N; ring).
      replace (1 * m * S * (d' * 9007199254740992))
        with (9007199254740992 * X) by (unfold X; ring).
      replace (n * 9007199254740993 * P) with (9007199254740993 * N)
        by (unfold N; ring).
      lia.
    + assert (Hneg : n < 0) by lia.
      rewrite (Z.sgn_neg n Hneg), (Z.abs_neq n) in * by lia.
      set (N := - n * P) in *. set (X := m * (d' * S)) in *.
      replace (n * 9007199254740991 * P) with (- (9007199254740991 * N))
        by (unfold N; ring).
      replace (-1 * m * S * (d' * 9007199254740992))
        with (- (9007199254740992 * X)) by (unfold X; ring).
      replace (n * 9007199254740993 * P) with (- (9007199254740993 * N))
        by (unfold N; ring).
      lia.
Qed.

(** The figures of some elapsed times, in microseconds, as CPython prints
    them: 23.95 exact hours is the float just below and prints "23.9";
    23.75 is a float and the tie goes to the even "23.8". *)
Example hours_left_figures :
  List.map (fun elapsed => PyFloat.format_1f (hours_left elapsed))
    [1; 3600000000; 180000000; 900000000; 540000000; 123456789;
     77777777777; 86219999999; 86220000001; 86399999999; -3600000000]
  = ["24.0"; "23.0"; "23.9"; "23.8"; "23.9"; "24.0";
     "2.4"; "0.1"; "0.0"; "0.0"; "25.0"].
Proof. vm_compute. reflexivity. Qed.

Example round_one_tenth :
  (PyFloat.round (1 # 10) == 3602879701896397 # 36028797018963968)%Q.
Proof. vm_compute. reflexivity. Qed.

(** The float [hours_left] of a denial is not negative and is within
    [float_slack] of the exact remaining hours. *)
Lemma hours_left_bounds (tp : Z) :
  tp < timedelta_hours COOLDOWN_HOURS ->
  (0 <= hours_left tp
   /\ exact_hours_left tp - float_slack tp <= hours_left tp
      <= exact_hours_left tp + float_slack tp)%Q.
Proof.
  intros Hlt. unfold timedelta_hours, COOLDOWN_HOURS in Hlt.
  unfold hours_left, total_seconds, PyFloat.sub, PyFloat.div, PyFloat.truediv.
  assert (H24 : (PyFloat.of_int COOLDOWN_HOURS == 24)%Q) by reflexivity.
  assert (H3600 : (PyFloat.of_int 3600 == 3600)%Q) by reflexivity.
  set (c24 := PyFloat.of_int COOLDOWN_HOURS) in *.
  set (c3600 := PyFloat.of_int 3600) in *.
  change (Z.to_pos 1000000) with 1000000%positive.
  set (s := tp # 1000000).
  set (s' := PyFloat.round s).
  assert (Hy : (s' / c3600 == s' * (1 # 3600))%Q).
  { rewrite H3600. unfold Qdiv. reflexivity. }
  set (y := (s' / c3600)%Q) in *.
  set (x := PyFloat.round y).
  set (z := (c24 - x)%Q).
  set (h := PyFloat.round z).
  assert (Hz : (z == c24 - x)%Q) by reflexivity.
  pose proof (round_bounds s) as [Bs1 Bs2].
  pose proof (round_bounds y) as [By1 By2].
  pose proof (round_bounds z) as [Bz1 Bz2].
  fold s' in Bs1, Bs2. fold x in By1, By2. fold h in Bz1, Bz2.
  unfold PyFloat.round_lo, PyFloat.round_hi in *.
  unfold exact_hours_left, float_slack.
  change (inject_Z COOLDOWN_HOURS) with (24 # 1).
  clearbody h z x y s' c24 c3600.
  destruct (Z_le_gt_dec 0 tp) as [Hpos|Hneg].
  - assert (Hs0 : (0 <= s)%Q) by (unfold s, Qle; simpl; lia).
    assert (Hs1 : (s <= 86399999999 # 1000000)%Q)
      by (unfold s, Qle; simpl; lia).
    assert (Hs : (s == 3600 * (tp # 3600000000))%Q)
      by (unfold s, Qeq; simpl; lia).
    assert (Ha : (Z.abs tp # 3600000000 == tp # 3600000000)%Q)
      by (rewrite Z.abs_eq by lia; reflexivity).
    specialize (Bs1 Hs0). clear Bs2.
    assert (Hy0 : (0 <= y)%Q) by lra.
    specialize (By1 Hy0). clear By2.
    assert (Hz0 : (0 <= z)%Q) by lra.
    specialize (Bz1 Hz0). clear Bz2.
    split; [lra|]. split; lra.
  - assert (Hs0 : (s <= 0)%Q) by (unfold s, Qle; simpl; lia).
    assert (Hs : (s == 3600 * (tp # 3600000000))%Q)
      by (unfold s, Qeq; simpl; lia).
    assert (Ha : (Z.abs tp # 3600000000 == - (tp # 3600000000))%Q)
      by (rewrite Z.abs_neq by lia; unfold Qeq; simpl; lia).
    specialize (Bs2 Hs0). clear Bs1.
    assert (Hy0 : (y <= 0)%Q) by lra.
    specialize (By2 Hy0). clear By1.
    assert (Hz0 : (0 <= z)%Q) by lra.
    specialize (Bz1 Hz0). clear Bz2.
    split; [lra|]. split; lra.
Qed.

(** What [.1f] prints for a float that is not negative: a count of tenths
    that is not negative and within half a tenth of the float. *)
Lemma format_1f_nonneg (x : Q) :
  (0 <= x)%Q ->
  PyFloat.format_1f x = PyFloat.render_tenths (PyFloat.tenths x)
  /\ 0 <= PyFloat.tenths x
  /\ (x - (1 # 20) <= PyFloat.tenths x # 10 <= x + (1 # 20))%Q.
Proof.
  intros Hx. destruct x as [n d]. unfold Qle in Hx. simpl in Hx.
  assert (Hn : 0 <= n) by lia.
  assert (Ht : 0 <= PyFloat.tenths (n # d))
    by (apply rne_nonneg; simpl; lia).
  split; [|split; [exact Ht|]].
  - unfold PyFloat.format_1f. cbn [Qnum].
    destruct (n <? 0) eqn:E; [apply Z.ltb_lt in E; lia|].
    rewrite Z.abs_eq by exact Ht. reflexivity.
  - pose proof (rne_spec (10 * n) (Z.pos d) ltac:(lia)) as Hr.
    unfold PyFloat.tenths in *. cbn [Qnum Qden] in *.
    set (t := PyFloat.rne (10 * n) (Z.pos d)) in *.
    unfold Qle, Qminus, Qplus, Qopp. cbn [Qnum Qden].
    rewrite !Pos2Z.inj_mul. nia.
Qed.

(** The denial of a user outside the allow-list with a recorded time: the
    notice states the float [hours_left] with one decimal. *)
Lemma can_generate_denied ADMIN_IDS (cooldowns : gmap Z Z) now user_id
    last_time :
  is_admin ADMIN_IDS user_id = false ->
  cooldowns !! user_id = Some last_time ->
  now - last_time < timedelta_hours COOLDOWN_HOURS ->
  can_generate ADMIN_IDS cooldowns now user_id
  = (false,
     WaitNotice
       (PyFloat.render_tenths
          (PyFloat.tenths (hours_left (now - last_time))))).
Proof.
  intros Hna Hlast Hlt. unfold can_generate. rewrite Hna, Hlast.
  rewrite bool_decide_eq_true_2 by exact Hlt.
  destruct (hours_left_bounds _ Hlt) as [H0 _].
  destruct (format_1f_nonneg _ H0) as [-> _]. reflexivity.
Qed.

(** C3, as amended.  For a user outside the allow-list: with no entry in
    the cooldown map the answer is allowed; with a recorded time and less
    than 24 hours elapsed the answer is denied, with a notice whose figure
    is a count of tenths of an hour that is not negative, printed with one
    decimal: the float value of 24 minus the elapsed hours rounded to one
    decimal, which is within 0.05 hours, and the error of the float
    computation, of 24 minus the elapsed hours; with 24 hours or more
    elapsed the answer is allowed. *)
Theorem can_generate_non_admin (ADMIN_IDS : list string)
    (cooldowns : gmap Z Z) (now user_id : Z) :
  is_admin ADMIN_IDS user_id = false ->
  (cooldowns !! user_id = None ->
   can_generate ADMIN_IDS cooldowns now user_id = (true, NoReason))
  /\ (forall last_time, cooldowns !! user_id = Some last_time ->
      let elapsed := now - last_time in
      (elapsed < timedelta_hours COOLDOWN_HOURS ->
       exists tenths : Z,
         can_generate ADMIN_IDS cooldowns now user_id
         = (false, WaitNotice (PyFloat.render_tenths tenths))
         /\ tenths = PyFloat.tenths (hours_left elapsed)
         /\ 0 <= tenths
         /\ (exact_hours_left elapsed - (1 # 20) - float_slack elapsed
             <= tenths # 10
             <= exact_hours_left elapsed + (1 # 20) + float_slack elapsed)%Q)
      /\ (timedelta_hours COOLDOWN_HOURS <= elapsed ->
          can_generate ADMIN_IDS cooldowns now user_id = (true, NoReason))).
Proof.
  intros Hna. split.
  - intros Hnone. unfold can_generate. rewrite Hna, Hnone. reflexivity.
  - intros last_time Hlast. cbv zeta. split.
    + intros Hlt. eexists. split; [|split; [reflexivity|]].
      * apply can_generate_denied; assumption.
      * destruct (hours_left_bounds _ Hlt) as (H0 & Hlo & Hhi).
        destruct (format_1f_nonneg _ H0) as (_ & Ht & Htl & Hth).
        split; [exact Ht|]. split; lra.
    + intros Hge. unfold can_generate. rewrite Hna, Hlast.
      rewrite bool_decide_eq_false_2 by lia. reflexivity.
Qed.

(** One hour after a generation the notice says "23.0"; after 25 hours
    the user is allowed again. *)
Lemma can_generate_non_admin_witness :
  (exists tenths,
     can_generate ["12"] {[7 := 0]} 3600000000 7
     = (false, WaitNotice (PyFloat.render_tenths tenths))
     /\ tenths = 230)
  /\ can_generate ["12"] {[7 := 0]} 90000000000 7 = (true, NoReason)
  /\ can_generate ["12"] ∅ 0 7 = (true, NoReason).
Proof.
  split; [|split].
  - destruct (can_generate_non_admin ["12"] {[7 := 0]} 3600000000 7 eq_refl)
      as [_ H].
    pose proof (H 0 eq_refl) as H0. cbv zeta in H0. destruct H0 as [Hlt _].
    destruct (Hlt eq_refl) as (t & Hc & Ht & _).
    exists t. split; [exact Hc|]. rewrite Ht. reflexivity.
  - destruct (can_generate_non_admin ["12"] {[7 := 0]} 90000000000 7 eq_refl)
      as [_ H].
    pose proof (H 0 eq_refl) as H0. cbv zeta in H0. destruct H0 as [_ Hge].
    apply Hge. discriminate.
  - destruct (can_generate_non_admin ["12"] ∅ 0 7 eq_refl) as [H _].
    apply H. reflexivity.
Defined.

(** C3, the claim as written fails: one microsecond after the recorded
    time the notice states "24.0", which is not 24 minus the elapsed hours;
    one second before the 24 hours are over it states "0.0", with a 3600th
    of an hour left. *)
Lemma stated_figure_is_rounded :
  can_generate ["12"] {[7 := 0]} 1 7 = (false, WaitNotice "24.0")
  /\ (exact_hours_left 1 < 24)%Q
  /\ can_generate ["12"] {[7 := 0]} 86399000000 7
     = (false, WaitNotice "0.0")
  /\ (0 < exact_hours_left 86399000000)%Q.
Proof. repeat split; vm_compute; reflexivity. Qed.

(** ** The parser *)

(** The three parsing scenarios of the specification. *)
Example parse_three_fields :
  parse_video_config
    (text_of_lines ["Topik: AI"; "Mode: long"; "Style: cinematic"])
  = Ok {| topic := "AI"; mode := "long"; style := "cinematic" |}.
Proof. reflexivity. Qed.

Example parse_topic_only :
  parse_video_config (text_of_lines ["Topic: foo"])
  = Ok {| topic := "foo"; mode := "short"; style := "cinematic" |}.
Proof. reflexivity. Qed.

Example parse_without_topic :
  parse_video_config (text_of_lines ["Mode: long"; "Style: dark"])
  = Raise (ValueError "Topik tidak boleh kosong!").
Proof. reflexivity. Qed.

(** Blank lines, surrounding blanks and lines without colon are dropped. *)
Example parse_with_noise :
  parse_video_config
    (text_of_lines ["  hello there "; ""; "   "; " TOPIK :  AI dan kita  "])
  = Ok {| topic := "AI dan kita"; mode := "short"; style := "cinematic" |}.
Proof. reflexivity. Qed.

Lemma values_of_ext (P Q : string -> bool) lines :
  (forall key, P key = Q key) -> values_of P lines = values_of Q lines.
Proof.
  intros HPQ. induction lines as [|line lines IH]; [reflexivity|].
  rewrite !values_of_cons, IH.
  destruct (key_value line) as [[key value]|]; [|reflexivity].
  rewrite HPQ. reflexivity.
Qed.

Lemma values_of_none f lines :
  Forall (fun l => line_family l <> Some f) lines ->
  values_of (in_family f) lines = [].
Proof.
  induction 1 as [|line lines Hl _ IH]; [reflexivity|].
  rewrite values_of_cons, IH.
  unfold line_family in Hl.
  destruct (key_value line) as [[key value]|]; [|reflexivity].
  unfold in_family. rewrite bool_decide_eq_false_2 by exact Hl. reflexivity.
Qed.

Lemma values_of_last_line f before line after key value :
  key_value line = Some (key, value) ->
  family key = Some f ->
  Forall (fun l => line_family l <> Some f) after ->
  list.last (values_of (in_family f) (before ++ line :: after)) = Some value.
Proof.
  intros Hkv Hf Hafter.
  assert (Happ : values_of (in_family f) (before ++ line :: after)
                 = (values_of (in_family f) before
                    ++ values_of (in_family f) (line :: after))%list)
    by apply omap_app.
  rewrite Happ, values_of_cons, Hkv. unfold in_family at 2.
  rewrite bool_decide_eq_true_2 by exact Hf.
  rewrite (values_of_none _ _ Hafter). apply last_snoc.
Qed.

Lemma parse_raise_iff text :
  parse_video_config text = Raise (ValueError "Topik tidak boleh kosong!")
  <-> topic (parse_lines (config_lines text) default_config) = "".
Proof.
  unfold parse_video_config.
  destruct (topic (parse_lines (config_lines text) default_config));
    simpl; split; intros H; try reflexivity; discriminate.
Qed.

(** C4, as amended.  [parse_video_config] raises exactly when the topic is
    empty after the loop, and the topic after the loop is the value of the
    last line whose key has "topik" or "topic" in it (empty when there is no
    such line): a later topic line with an empty value empties the topic
    again.  Every other text is answered with the configuration. *)
Theorem parse_fails_iff_last_topic_empty (text : string) :
  let final := parse_lines (config_lines text) default_config in
  let last_topic := list.last (values_of topic_key (config_lines text)) in
  (parse_video_config text = Raise (ValueError "Topik tidak boleh kosong!")
   <-> topic final = "")
  /\ topic final = default "" last_topic
  /\ (parse_video_config text
      <> Raise (ValueError "Topik tidak boleh kosong!") ->
      parse_video_config text = Ok final).
Proof.
  cbv zeta. split; [apply parse_raise_iff|]. split.
  - rewrite (field_parse_lines FTopic). simpl.
    rewrite (values_of_ext (in_family FTopic) topic_key).
    + destruct (list.last _); reflexivity.
    + intros key. unfold in_family, family.
      destruct (topic_key key), (mode_key key), (style_key key); reflexivity.
  - unfold parse_video_config.
    destruct (PyStr.truthy _); simpl; [reflexivity | congruence].
Qed.

(** C4, the claim as written fails: the text "topic: foo" / "topic:" has a
    line with a topic key and a value that is not empty, and is refused. *)
Lemma parse_fails_despite_topic_line :
  has_topic_line (config_lines (text_of_lines ["topic: foo"; "topic:"]))
  = true
  /\ parse_video_config (text_of_lines ["topic: foo"; "topic:"])
     = Raise (ValueError "Topik tidak boleh kosong!").
Proof. split; reflexivity. Qed.

(** C8, as amended.  When a text is accepted, the field of each key
    family holds what the last line of that family stored, whatever the
    lines before it were, where a line is of the family whose branch the
    chain takes for its key: the first of topic, mode, style whose
    substring is in the key.  A line whose key has the substring of a
    family of lower precedence as well does not count for that family. *)
Theorem last_line_of_family_wins (text : string) (c : Config) (f : Family)
    (before after : list string) (line key value : string) :
  parse_video_config text = Ok c ->
  config_lines text = (before ++ line :: after)%list ->
  key_value line = Some (key, value) ->
  family key = Some f ->
  Forall (fun l => line_family l <> Some f) after ->
  field f c = stored f value.
Proof.
  intros Hok Hlines Hkv Hf Hafter.
  apply parse_video_config_ok in Hok as [-> _].
  rewrite field_parse_lines, Hlines.
  rewrite (values_of_last_line f before line after key value Hkv Hf Hafter).
  reflexivity.
Qed.

(** Two mode lines and two topic lines: the later one of each decides. *)
Lemma last_line_of_family_wins_witness :
  field FMode
    {| topic := "y"; mode := "short"; style := "cinematic" |} = "short"
  /\ field FTopic
       {| topic := "y"; mode := "short"; style := "cinematic" |} = "y".
Proof.
  split.
  - apply (last_line_of_family_wins
             (text_of_lines ["topic: x"; "mode: long"; "Mode: short";
                             "topic: y"])
             _ FMode ["topic: x"; "mode: long"] ["topic: y"]
             "Mode: short" "mode" "short");
      try reflexivity.
    repeat constructor. discriminate.
  - apply (last_line_of_family_wins
             (text_of_lines ["topic: x"; "mode: long"; "Mode: short";
                             "topic: y"])
             _ FTopic ["topic: x"; "mode: long"; "Mode: short"] []
             "topic: y" "topic" "y");
      try reflexivity.
    constructor.
Defined.

(** C8, the claim as written fails: in the accepted text "topic: a" /
    "mode: long" / "topic mode: short" two lines have a key with "mode" in
    it, the last of them has the value "short", and the mode of the
    configuration is "long". *)
Lemma last_line_with_mode_in_key_does_not_win :
  parse_video_config
    (text_of_lines ["topic: a"; "mode: long"; "topic mode: short"])
  = Ok {| topic := "short"; mode := "long"; style := "cinematic" |}
  /\ values_of (key_matches FMode)
       (config_lines
          (text_of_lines ["topic: a"; "mode: long"; "topic mode: short"]))
     = ["long"; "short"]
  /\ stored FMode "short" = "short".
Proof. repeat split; reflexivity. Qed.

(** C9, as amended.  For an accepted text the mode is "long" exactly when
    the last line whose key has "mode" in it, and neither "topik" nor
    "topic", has a value whose lower-cased text has "long" in it; it is
    "short" otherwise, and in particular when no key has "mode" in it; the
    style is "cinematic" when no key has "style" or "gaya" in it. *)
Theorem mode_and_style_of_accepted (text : string) (c : Config) :
  parse_video_config text = Ok c ->
  let lines := config_lines text in
  (mode c = "long" <->
   exists value,
     list.last (values_of mode_branch_key lines) = Some value
     /\ PyStr.contains "long" (PyStr.lower value) = true)
  /\ (mode c <> "long" -> mode c = "short")
  /\ (values_of mode_key lines = [] -> mode c = "short")
  /\ (values_of style_key lines = [] -> style c = "cinematic").
Proof.
  intros Hok lines. apply parse_video_config_ok in Hok as [-> _].
  fold lines.
  pose proof (field_parse_lines FMode lines default_config) as Hm.
  pose proof (field_parse_lines FStyle lines default_config) as Hs.
  simpl in Hm, Hs.
  rewrite (values_of_ext _ _ lines in_family_mode) in Hm.
  assert (Hmode : forall v, mode_of v = "long" <->
                    PyStr.contains "long" (PyStr.lower v) = true).
  { intros v. unfold mode_of.
    destruct (PyStr.contains "long" (PyStr.lower v));
      split; intros H; try reflexivity; discriminate. }
  assert (Hshort : forall v, mode_of v <> "long" -> mode_of v = "short").
  { intros v. unfold mode_of.
    destruct (PyStr.contains "long" (PyStr.lower v)); [congruence|reflexivity]. }
  split; [|split; [|split]].
  - rewrite Hm. destruct (list.last (values_of mode_branch_key lines)) as [v|];
      simpl.
    + rewrite Hmode. split.
      * intros H. exists v. split; [reflexivity | exact H].
      * intros (v' & Hv' & H). injection Hv' as <-. exact H.
    + split; [discriminate|]. intros (v' & Hv' & _). discriminate.
  - rewrite Hm. destruct (list.last (values_of mode_branch_key lines)) as [v|];
      simpl; [apply Hshort | reflexivity].
  - intros Hnone. rewrite Hm.
    rewrite (values_of_nil_mono mode_branch_key mode_key lines); [reflexivity| |exact Hnone].
    intros key. unfold mode_branch_key. destruct (mode_key key); [reflexivity|discriminate].
  - intros Hnone. rewrite Hs.
    rewrite (values_of_nil_mono (in_family FStyle) style_key lines);
      [reflexivity| |exact Hnone].
    apply (in_family_matches FStyle).
Qed.

(** A long request, and a request that names neither mode nor style. *)
Lemma mode_and_style_of_accepted_witness :
  mode {| topic := "AI"; mode := "long"; style := "dark" |} = "long"
  /\ style {| topic := "foo"; mode := "short"; style := "cinematic" |}
     = "cinematic".
Proof.
  split.
  - apply (mode_and_style_of_accepted
             (text_of_lines ["Topik: AI"; "Mode: LONG form"; "Gaya: dark"])
             _ eq_refl).
    exists "LONG form". split; reflexivity.
  - apply (mode_and_style_of_accepted (text_of_lines ["Topic: foo"])
             _ eq_refl).
    reflexivity.
Defined.

(** C9, the claim as written fails: in the accepted text "topic mode: long"
    the last (and only) line whose key has "mode" in it has the value
    "long", and the mode of the configuration is "short". *)
Lemma mode_ignores_topic_keyed_line :
  parse_video_config (text_of_lines ["topic mode: long"])
  = Ok {| topic := "long"; mode := "short"; style := "cinematic" |}
  /\ list.last
       (values_of mode_key (config_lines (text_of_lines ["topic mode: long"])))
     = Some "long"
  /\ PyStr.contains "long" (PyStr.lower "long") = true.
Proof. repeat split; reflexivity. Qed.

(** C10. A line changes at most one field.  The chain tests the topic
    family first, then the mode family, then the style family, and only the
    first family whose test succeeds has its field set: the two other fields
    keep their values whatever else the key contains. *)
Theorem line_sets_first_matching_family (c : Config) (line : string) :
  (changed_fields c (parse_line c line) <= 1)%nat
  /\ (key_value line = None -> parse_line c line = c)
  /\ forall key value, key_value line = Some (key, value) ->
       let c' := parse_line c line in
       (topic_key key = true ->
        topic c' = value /\ mode c' = mode c /\ style c' = style c)
       /\ (topic_key key = false -> mode_key key = true ->
           topic c' = topic c /\ mode c' = mode_of value
           /\ style c' = style c)
       /\ (topic_key key = false -> mode_key key = false ->
           style_key key = true ->
           topic c' = topic c /\ mode c' = mode c /\ style c' = value)
       /\ (topic_key key = false -> mode_key key = false ->
           style_key key = false -> c' = c).
Proof.
  unfold parse_line. split; [|split].
  - destruct (key_value line) as [[key value]|].
    + rewrite apply_key_family. unfold changed_fields.
      destruct (family key) as [[| |]|]; simpl;
        rewrite ?String.eqb_refl;
        repeat match goal with
               | |- context [String.eqb ?a ?b] => destruct (String.eqb a b)
               end; simpl; lia.
    + unfold changed_fields. rewrite !String.eqb_refl. simpl. lia.
  - intros ->. reflexivity.
  - intros key value ->. cbv zeta. rewrite apply_key_family. unfold family.
    repeat split; intros; 
      repeat match goal with H : _ = _ |- _ => rewrite H; clear H end;
      reflexivity.
Qed.

(** A key with "topic" and "mode" and "style" in it sets only the topic. *)
Lemma line_sets_first_matching_family_witness :
  parse_line default_config "topic mode style: long"
  = {| topic := "long"; mode := "short"; style := "cinematic" |}.
Proof.
  destruct (line_sets_first_matching_family default_config
              "topic mode style: long") as (_ & _ & H).
  pose proof (H "topic mode style" "long" eq_refl) as H0. cbv zeta in H0.
  destruct H0 as (Ht & _). destruct (Ht eq_refl) as (H1 & H2 & H3).
  destruct (parse_line default_config "topic mode style: long")
    as [t m s] eqn:E.
  simpl in H1, H2, H3. rewrite H1, H2, H3. reflexivity.
Defined.

(** ** Running the handlers *)

Lemma reply_text_eq m w :
  reply_text m w =
  let o := hd true (transport w) in
  (if o then Ok () else Raise TransportError,
   add_event (EvReplyText m o) (set_transport (tl (transport w)) w)).
Proof.
  unfold reply_text, mbind, M_bind, next_outcome, record, mret, M_ret, raise.
  destruct w as [cd ud fs ck tr ts ev]. simpl.
  destruct tr as [|[|] rest]; reflexivity.
Qed.

Lemma reply_video_eq path caption w :
  reply_video path caption w =
  let o := hd true (transport w) in
  (if o then Ok () else Raise TransportError,
   add_event (EvReplyVideo path caption o)
     (set_transport (tl (transport w)) w)).
Proof.
  unfold reply_video, mbind, M_bind, next_outcome, record, mret, M_ret, raise.
  destruct w as [cd ud fs ck tr ts ev]. simpl.
  destruct tr as [|[|] rest]; reflexivity.
Qed.

(** C1, as amended.  When the flag is set, [handle_input] clears it if the
    text parses.  If [parse_video_config] raises, [handle_input] sends the
    format error with the exception in it and nothing else, creates no task
    and leaves the flag set; it returns when the message is delivered and
    raises the transport's exception when it is not.  The next text is
    taken as input again. *)
Theorem handle_input_clears_flag_on_success (update : Update) (w : World) :
  waiting_for_input w = true ->
  let out := handle_input update w in
  let w' := snd out in
  (is_ok (parse_video_config (message_text update)) = true ->
   waiting_for_input w' = false)
  /\ (forall e, parse_video_config (message_text update) = Raise e ->
      waiting_for_input w' = true
      /\ events w'
         = (events w ++ [EvReplyText (MsgFormatError e) (outcome 0 w)])%list
      /\ tasks w' = tasks w
      /\ fst out = if outcome 0 w then Ok () else Raise TransportError).
Proof.
  intros Hflag. cbv zeta. unfold handle_input. rewrite Hflag. simpl.
  assert (Hout : outcome 0 w = hd true (transport w))
    by (unfold outcome; destruct (transport w); reflexivity).
  destruct (parse_video_config (message_text update)) as [config|e];
    simpl; split.
  - intros _. unfold mbind, M_bind, set_waiting. rewrite reply_text_eq.
    cbv zeta. simpl. destruct (hd true (transport w)); simpl;
      unfold waiting_for_input; simpl; rewrite lookup_insert_eq; reflexivity.
  - intros e H. discriminate H.
  - intros H. discriminate H.
  - intros e' H. injection H as <-. rewrite reply_text_eq, Hout. cbv zeta.
    split; [exact Hflag|]. repeat split; reflexivity.
Qed.

(** After a well-formed request the flag is cleared; after a request
    without topic the format error is sent and the flag is still set. *)
Lemma handle_input_clears_flag_on_success_witness :
  waiting_for_input
    (snd (handle_input (mkUpdate 7 (text_of_lines ["Topic: foo"]))
            awaiting_world)) = false
  /\ (waiting_for_input
        (snd (handle_input
                (mkUpdate 7 (text_of_lines ["Mode: long"; "Style: dark"]))
                awaiting_world)) = true
      /\ events
           (snd (handle_input
                   (mkUpdate 7 (text_of_lines ["Mode: long"; "Style: dark"]))
                   awaiting_world))
         = (events awaiting_world ++
            [EvReplyText
               (MsgFormatError (ValueError "Topik tidak boleh kosong!"))
               true])%list).
Proof.
  split.
  - apply (handle_input_clears_flag_on_success
             (mkUpdate 7 (text_of_lines ["Topic: foo"])) awaiting_world);
      reflexivity.
  - destruct (proj2 (handle_input_clears_flag_on_success
                       (mkUpdate 7
                          (text_of_lines ["Mode: long"; "Style: dark"]))
                       awaiting_world eq_refl)
                (ValueError "Topik tidak boleh kosong!") eq_refl)
      as (Hflag & Hev & _).
    split; [exact Hflag | exact Hev].
Defined.

(** C1, the claim as written fails: the flag is set, the text "Mode: long"
    / "Style: dark" has no topic, [parse_video_config] raises, and the flag
    is still set when [handle_input] is done. *)
Lemma flag_still_set_after_parse_failure :
  waiting_for_input awaiting_world = true
  /\ parse_video_config (text_of_lines ["Mode: long"; "Style: dark"])
     = Raise (ValueError "Topik tidak boleh kosong!")
  /\ waiting_for_input
       (snd (handle_input
               (mkUpdate 7 (text_of_lines ["Mode: long"; "Style: dark"]))
               awaiting_world)) = true.
Proof. repeat split; reflexivity. Qed.

(** ** Calls that leave the quota alone *)

Lemma count_add_event P e w :
  count P (add_event e w) = (count P w + if P e then 1 else 0)%nat.
Proof.
  unfold count. simpl. rewrite List.filter_app, List.length_app. simpl.
  destruct (P e); reflexivity.
Qed.

Section Neutral.
Variable user_id : Z.

Lemma neutral_ret {A} (a : A) : neutral user_id (mret a).
Proof. intros w. reflexivity. Qed.

Lemma neutral_raise {A} e : neutral user_id (@raise A e).
Proof. intros w. reflexivity. Qed.

Lemma neutral_bind {A B} (m : M A) (k : A -> M B) :
  neutral user_id m -> (forall a, neutral user_id (k a)) ->
  neutral user_id (m ≫= k).
Proof.
  intros Hm Hk w. unfold mbind, M_bind. specialize (Hm w).
  destruct (m w) as [[a|e] w1]; simpl in *.
  - rewrite Hk. exact Hm.
  - exact Hm.
Qed.

Lemma neutral_try {A} (body : M A) handler :
  neutral user_id body -> (forall e, neutral user_id (handler e)) ->
  neutral user_id (try_except body handler).
Proof.
  intros Hm Hk w. unfold try_except. specialize (Hm w).
  destruct (body w) as [[a|e] w1]; simpl in *.
  - exact Hm.
  - rewrite Hk. exact Hm.
Qed.

Lemma neutral_event e :
  is_mark user_id e = false -> neutral user_id (record e).
Proof.
  intros He w. unfold quota, record. cbn [snd].
  rewrite count_add_event, He, Nat.add_0_r. reflexivity.
Qed.

Lemma neutral_reply_text m : neutral user_id (reply_text m).
Proof.
  intros w. rewrite reply_text_eq. unfold quota. cbn [snd].
  rewrite count_add_event. cbn [is_mark]. rewrite Nat.add_0_r. reflexivity.
Qed.

Lemma neutral_reply_video path caption :
  neutral user_id (reply_video path caption).
Proof.
  intros w. rewrite reply_video_eq. unfold quota. cbn [snd].
  rewrite count_add_event. cbn [is_mark]. rewrite Nat.add_0_r. reflexivity.
Qed.

Lemma neutral_stat_size path : neutral user_id (stat_size path).
Proof. intros w. unfold stat_size. destruct (files w !! path); reflexivity. Qed.

Lemma neutral_with_open_rb {A} path (body : M A) :
  neutral user_id body -> neutral user_id (with_open_rb path body).
Proof.
  intros Hb w. unfold with_open_rb.
  destruct (files w !! path); [apply Hb | reflexivity].
Qed.

Lemma neutral_unlink path : neutral user_id (unlink path).
Proof.
  intros w. unfold unlink, quota. cbn [snd].
  rewrite count_add_event. cbn [is_mark]. rewrite Nat.add_0_r. reflexivity.
Qed.

Lemma neutral_log_error e : neutral user_id (log_error e).
Proof. apply neutral_event. reflexivity. Qed.

(** What [generate_video_task] does after [mark_generated]. *)
Lemma neutral_delivery config (r : GenerationResult) :
  neutral user_id
    (size ← stat_size (video_path r);
     reply_text
       (MsgSuccess (title r) (video_path r)
          (if String.eqb (mode config) "short" then "40" else "240")
          size) ;;
     file_size ← stat_size (video_path r);
     (if bool_decide (file_size < SIZE_LIMIT) then
        reply_text MsgSending ;;
        with_open_rb (video_path r)
          (reply_video (video_path r) (title r))
      else reply_text MsgTooLarge) ;;
     unlink (video_path r)).
Proof.
  apply neutral_bind; [apply neutral_stat_size|]. intros size.
  apply neutral_bind; [apply neutral_reply_text|]. intros _.
  apply neutral_bind; [apply neutral_stat_size|]. intros file_size.
  apply neutral_bind; [|intros _; apply neutral_unlink].
  destruct (bool_decide (file_size < SIZE_LIMIT)).
  - apply neutral_bind; [apply neutral_reply_text|]. intros _.
    apply neutral_with_open_rb, neutral_reply_video.
  - apply neutral_reply_text.
Qed.

(** The [except] branch of [generate_video_task]. *)
Lemma neutral_handler e :
  neutral user_id (log_error e ;; reply_text (MsgFailed e)).
Proof.
  apply neutral_bind; [apply neutral_log_error|].
  intros _. apply neutral_reply_text.
Qed.

End Neutral.

Lemma delivers_1 w : delivers 1 w = hd true (transport w).
Proof.
  unfold delivers. destruct (transport w) as [|o rest]; simpl;
    [reflexivity | apply andb_true_r].
Qed.

(** The quota after [generate_video_task]: [mark_generated] ran once when
    the progress notice was delivered and [generate] returned, and did not
    run otherwise. *)
Lemma quota_after_task generator config user_id w :
  let out :=
    generator (topic config) (mode config) (style config)
      (files w, clock w) in
  quota user_id (snd (generate_video_task generator config user_id w)) =
  if delivers 1 w && is_ok (fst out)
  then (<[user_id := snd (snd out)]> (USER_COOLDOWNS w),
        S (count (is_mark user_id) w))
  else quota user_id w.
Proof.
  cbv zeta. rewrite delivers_1.
  unfold generate_video_task, try_except.
  unfold mbind at 1, M_bind at 1. rewrite reply_text_eq. cbv zeta.
  pose proof (neutral_reply_text user_id MsgProgress w) as Hq0.
  rewrite reply_text_eq in Hq0. cbv zeta in Hq0. cbn [snd] in Hq0.
  set (w1 := add_event _ _) in *.
  assert (Hc : count (is_mark user_id) w1 = count (is_mark user_id) w)
    by exact (f_equal snd Hq0).
  destruct (hd true (transport w)); cbn [andb].
  2:{ rewrite neutral_handler. exact Hq0. }
  unfold mbind at 1, M_bind at 1. unfold call_generate.
  change (files w1) with (files w). change (clock w1) with (clock w).
  destruct (generator (topic config) (mode config) (style config)
              (files w, clock w)) as [res fc].
  destruct res as [r|e]; cbn [is_ok fst snd].
  2:{ rewrite neutral_handler. unfold quota. rewrite count_add_event.
      cbn [is_mark]. rewrite Nat.add_0_r.
      change (count (is_mark user_id) (set_files_clock fc w1))
        with (count (is_mark user_id) w1).
      rewrite Hc. reflexivity. }
  set (w2 := add_event _ _).
  unfold mbind at 1, M_bind at 1. unfold do_mark_generated at 1.
  set (w3 := add_event _ _).
  assert (Hq3 : quota user_id w3 =
                (<[user_id := snd fc]> (USER_COOLDOWNS w),
                 S (count (is_mark user_id) w))).
  { unfold quota, w3. rewrite count_add_event. cbn [is_mark].
    rewrite bool_decide_eq_true_2 by reflexivity.
    change (count (is_mark user_id) (set_cooldowns _ w2))
      with (count (is_mark user_id) w2).
    unfold w2. rewrite count_add_event. cbn [is_mark].
    change (count (is_mark user_id) (set_files_clock fc w1))
      with (count (is_mark user_id) w1).
    rewrite Hc. f_equal. lia. }
  pose proof (neutral_delivery user_id config r w3) as Hd.
  match goal with
  | |- context [?m w3] => destruct (m w3) as [[[]|e] w4]
  end; cbn [snd] in *.
  - rewrite Hd. exact Hq3.
  - rewrite neutral_handler, Hd. exact Hq3.
Qed.

(** ** The background task *)

(** C2. In a run of [generate_video_task], [mark_generated] is called
    exactly once for the user when the [generate] call is made and returns
    a result, whatever the size of the file and whatever happens
    afterwards; when [generate] raises it is not called and the cooldown
    map is left as it was. *)
Theorem mark_generated_once_per_result (generator : Generator)
    (config : Config) (user_id : Z) (w : World) :
  let out :=
    fst (generator (topic config) (mode config) (style config)
           (files w, clock w)) in
  let w' := snd (generate_video_task generator config user_id w) in
  (delivers 1 w = true -> is_ok out = true ->
   count (is_mark user_id) w' = S (count (is_mark user_id) w))
  /\ (is_ok out = false ->
      count (is_mark user_id) w' = count (is_mark user_id) w
      /\ USER_COOLDOWNS w' = USER_COOLDOWNS w).
Proof.
  cbv zeta.
  pose proof (quota_after_task generator config user_id w) as Hq.
  cbv zeta in Hq. split.
  - intros Hd Hok. rewrite Hd, Hok in Hq. exact (f_equal snd Hq).
  - intros Hfail. rewrite Hfail, andb_false_r in Hq. split.
    + exact (f_equal snd Hq).
    + exact (f_equal fst Hq).
Qed.

(** A result of 60 MB consumes the quota once; a failing generator
    consumes nothing. *)
Lemma mark_generated_once_per_result_witness :
  count (is_mark 7)
    (snd (generate_video_task VideoGenerator_generate sample_config 7
            (world_with_file 62914560 []))) = 1%nat
  /\ count (is_mark 7)
       (snd (generate_video_task (failing_generator "boom") sample_config 7
               (world_with_file 62914560 []))) = 0%nat
  /\ USER_COOLDOWNS
       (snd (generate_video_task (failing_generator "boom") sample_config 7
               (world_with_file 62914560 []))) = ∅.
Proof.
  split.
  - apply (proj1 (mark_generated_once_per_result VideoGenerator_generate
                    sample_config 7 (world_with_file 62914560 [])));
      reflexivity.
  - apply (proj2 (mark_generated_once_per_result (failing_generator "boom")
                    sample_config 7 (world_with_file 62914560 []))).
    reflexivity.
Defined.

Lemma stat_size_eq path w size :
  files w !! path = Some size -> stat_size path w = (Ok size, w).
Proof. intros H. unfold stat_size. rewrite H. reflexivity. Qed.

(** The run of the task when [generate] returns a file below the ceiling
    and the first three notices are delivered. *)
Lemma task_run_below generator config user_id w r fc size :
  generator (topic config) (mode config) (style config) (files w, clock w)
  = (Ok r, fc) ->
  fst fc !! video_path r = Some size ->
  size < SIZE_LIMIT ->
  delivers 3 w = true ->
  let w' := snd (generate_video_task generator config user_id w) in
  let sent := outcome 3 w in
  events w' =
    (events w ++
     [EvReplyText MsgProgress true;
      EvGenerate (topic config) (mode config) (style config) true;
      EvMarkGenerated user_id;
      EvReplyText
        (MsgSuccess (title r) (video_path r)
           (if String.eqb (mode config) "short" then "40" else "240") size)
        true;
      EvReplyText MsgSending true;
      EvReplyVideo (video_path r) (title r) sent] ++
     (if sent then [EvUnlink (video_path r)]
      else [EvLogError TransportError;
            EvReplyText (MsgFailed TransportError) (outcome 4 w)]))%list
  /\ files w' = (if sent then delete (video_path r) (fst fc) else fst fc)
  /\ USER_COOLDOWNS w' = <[user_id := snd fc]> (USER_COOLDOWNS w).
Proof.
  intros Hgen Hfile Hsize Hdel. cbv zeta.
  unfold generate_video_task, try_except, mbind, M_bind, call_generate,
    do_mark_generated, with_open_rb, unlink, log_error, record, outcome,
    delivers in *.
  rewrite reply_text_eq. cbv zeta.
  destruct w as [cd ud fs ck tr ts ev]. cbn in Hgen, Hdel |- *.
  rewrite Hgen.
  destruct tr as [|[|] [|[|] [|[|] [|o4 [|o5 rest]]]]];
    try discriminate Hdel; try destruct o4;
    repeat first [ rewrite (stat_size_eq _ _ size) by exact Hfile
                 | rewrite Hfile
                 | rewrite reply_text_eq
                 | rewrite reply_video_eq
                 | rewrite (bool_decide_eq_true_2 _ Hsize)
                 | progress cbn ];
    rewrite <- ?app_assoc; repeat split; reflexivity.
Qed.

(** The run of the task when [generate] returns a file at or above the
    ceiling and the first two notices are delivered. *)
Lemma task_run_above generator config user_id w r fc size :
  generator (topic config) (mode config) (style config) (files w, clock w)
  = (Ok r, fc) ->
  fst fc !! video_path r = Some size ->
  SIZE_LIMIT <= size ->
  delivers 2 w = true ->
  let w' := snd (generate_video_task generator config user_id w) in
  let told := outcome 2 w in
  events w' =
    (events w ++
     [EvReplyText MsgProgress true;
      EvGenerate (topic config) (mode config) (style config) true;
      EvMarkGenerated user_id;
      EvReplyText
        (MsgSuccess (title r) (video_path r)
           (if String.eqb (mode config) "short" then "40" else "240") size)
        true;
      EvReplyText MsgTooLarge told] ++
     (if told then [EvUnlink (video_path r)]
      else [EvLogError TransportError;
            EvReplyText (MsgFailed TransportError) (outcome 3 w)]))%list
  /\ files w' = (if told then delete (video_path r) (fst fc) else fst fc)
  /\ USER_COOLDOWNS w' = <[user_id := snd fc]> (USER_COOLDOWNS w).
Proof.
  intros Hgen Hfile Hsize Hdel. cbv zeta.
  assert (Hnot : ~ size < SIZE_LIMIT) by lia.
  unfold generate_video_task, try_except, mbind, M_bind, call_generate,
    do_mark_generated, with_open_rb, unlink, log_error, record, outcome,
    delivers in *.
  rewrite reply_text_eq. cbv zeta.
  destruct w as [cd ud fs ck tr ts ev]. cbn in Hgen, Hdel |- *.
  rewrite Hgen.
  destruct tr as [|[|] [|[|] [|o3 [|o4 rest]]]];
    try discriminate Hdel; try destruct o3;
    repeat first [ rewrite (stat_size_eq _ _ size) by exact Hfile
                 | rewrite Hfile
                 | rewrite reply_text_eq
                 | rewrite (bool_decide_eq_false_2 _ Hnot)
                 | progress cbn ];
    rewrite <- ?app_assoc; repeat split; reflexivity.
Qed.

Lemma count_events_app P w w' new :
  events w' = (events w ++ new)%list ->
  count P w' = (count P w + List.length (List.filter P new))%nat.
Proof.
  intros H. unfold count. rewrite H, List.filter_app, List.length_app.
  reflexivity.
Qed.

Lemma delivers_3 w :
  delivers 3 w = true -> delivers 2 w = true /\ outcome 2 w = true.
Proof.
  unfold delivers, outcome.
  destruct (transport w) as [|[|] [|[|] [|[|] rest]]]; simpl; intros H;
    try discriminate H; split; reflexivity.
Qed.



(** C6, as amended.  When [generate] has returned a file below 50 MB and
    the notices before the transmission are delivered, the file is deleted
    once the transmission has returned; when the transmission raises, the
    failure is reported and the file is left in place. *)
Theorem file_deleted_after_delivered_video (generator : Generator)
    (config : Config) (user_id : Z) (w : World) (r : GenerationResult)
    (fc : gmap string Z * Z) (size : Z) :
  generator (topic config) (mode config) (style config) (files w, clock w)
  = (Ok r, fc) ->
  fst fc !! video_path r = Some size ->
  size < SIZE_LIMIT ->
  delivers 3 w = true ->
  let w' := snd (generate_video_task generator config user_id w) in
  let unlinks := count (is_unlink (video_path r)) in
  (outcome 3 w = true ->
   files w' !! video_path r = None /\ unlinks w' = S (unlinks w))
  /\ (outcome 3 w = false ->
      files w' !! video_path r = Some size /\ unlinks w' = unlinks w).
Proof.
  intros Hgen Hfile Hsize Hdel. cbv zeta.
  destruct (task_run_below generator config user_id w r fc size
              Hgen Hfile Hsize Hdel) as (Hev & Hfiles & _).
  cbv zeta in Hev, Hfiles.
  split; intros Hsent; rewrite Hsent in Hev, Hfiles; rewrite Hfiles;
    rewrite (count_events_app _ _ _ _ Hev); simpl.
  - rewrite String.eqb_refl. simpl. split; [apply lookup_delete_eq | lia].
  - split; [exact Hfile | lia].
Qed.

(** The file is gone after a delivered transmission and still there after
    one that raised. *)
Lemma file_deleted_after_delivered_video_witness :
  files
    (snd (generate_video_task VideoGenerator_generate sample_config 7
            (world_with_file 1000 []))) !! "dummy.mp4" = None
  /\ files
       (snd (generate_video_task VideoGenerator_generate sample_config 7
               (world_with_file 1000 [true; true; true; false])))
     !! "dummy.mp4" = Some 1000.
Proof.
  split.
  - apply (proj1 (file_deleted_after_delivered_video VideoGenerator_generate
                    sample_config 7 (world_with_file 1000 [])
                    {| title := "AI"; video_path := "dummy.mp4" |}
                    ({["dummy.mp4" := 1000]}, 0) 1000
                    eq_refl eq_refl eq_refl eq_refl)).
    reflexivity.
  - apply (proj2 (file_deleted_after_delivered_video VideoGenerator_generate
                    sample_config 7
                    (world_with_file 1000 [true; true; true; false])
                    {| title := "AI"; video_path := "dummy.mp4" |}
                    ({["dummy.mp4" := 1000]}, 0) 1000
                    eq_refl eq_refl eq_refl eq_refl)).
    reflexivity.
Defined.

(** C6, the claim as written fails: the file has 1000 bytes, the
    transmission is attempted and raises, and the file is still there when
    the task is done; no [unlink] was called. *)
Lemma file_kept_when_transmission_raises :
  1000 < SIZE_LIMIT
  /\ events
       (snd (generate_video_task VideoGenerator_generate sample_config 7
               (world_with_file 1000 [true; true; true; false])))
     = [EvReplyText MsgProgress true;
        EvGenerate "AI" "long" "cinematic" true;
        EvMarkGenerated 7;
        EvReplyText (MsgSuccess "AI" "dummy.mp4" "240" 1000) true;
        EvReplyText MsgSending true;
        EvReplyVideo "dummy.mp4" "AI" false;
        EvLogError TransportError;
        EvReplyText (MsgFailed TransportError) true]
  /\ files
       (snd (generate_video_task VideoGenerator_generate sample_config 7
               (world_with_file 1000 [true; true; true; false])))
     !! "dummy.mp4" = Some 1000.
Proof. repeat split; reflexivity. Qed.

(** ** Further properties: strings *)

Lemma lstrip_idem s : PyStr.lstrip (PyStr.lstrip s) = PyStr.lstrip s.
Proof.
  induction s as [|c r IH]; [reflexivity|]. simpl.
  destruct (PyStr.isspace c) eqn:E; [exact IH|]. simpl. rewrite E.
  reflexivity.
Qed.

Lemma rstrip_cons c r :
  PyStr.rstrip (String c r) =
  if PyStr.truthy (PyStr.rstrip r) then String c (PyStr.rstrip r)
  else if PyStr.isspace c then "" else String c "".
Proof. simpl. destruct (PyStr.rstrip r); reflexivity. Qed.

Lemma rstrip_idem s : PyStr.rstrip (PyStr.rstrip s) = PyStr.rstrip s.
Proof.
  induction s as [|c r IH]; [reflexivity|].
  rewrite rstrip_cons.
  destruct (PyStr.truthy (PyStr.rstrip r)) eqn:Et.
  - rewrite rstrip_cons, IH, Et. reflexivity.
  - destruct (PyStr.isspace c) eqn:Ec; [reflexivity|].
    rewrite rstrip_cons. simpl. rewrite Ec. reflexivity.
Qed.

(** A string of blanks only: both strips empty it. *)
Lemma rstrip_blank_lstrip s :
  PyStr.rstrip s = "" -> PyStr.lstrip s = "".
Proof.
  induction s as [|c r IH]; [reflexivity|].
  rewrite rstrip_cons.
  destruct (PyStr.truthy (PyStr.rstrip r)) eqn:Et; [discriminate|].
  destruct (PyStr.isspace c) eqn:Ec; [|discriminate].
  intros _. simpl. rewrite Ec. apply IH.
  destruct (PyStr.rstrip r); [reflexivity | discriminate].
Qed.

Lemma lstrip_rstrip s :
  PyStr.lstrip (PyStr.rstrip s) = PyStr.rstrip (PyStr.lstrip s).
Proof.
  induction s as [|c r IH]; [reflexivity|].
  rewrite rstrip_cons.
  destruct (PyStr.isspace c) eqn:Ec.
  - change (PyStr.lstrip (String c r)) with
      (if PyStr.isspace c then PyStr.lstrip r else String c r).
    rewrite Ec.
    destruct (PyStr.truthy (PyStr.rstrip r)) eqn:Et.
    + simpl. rewrite Ec. exact IH.
    + assert (Hr : PyStr.rstrip r = "")
        by (destruct (PyStr.rstrip r); [reflexivity | discriminate]).
      rewrite (rstrip_blank_lstrip r Hr). reflexivity.
  - change (PyStr.lstrip (String c r)) with
      (if PyStr.isspace c then PyStr.lstrip r else String c r).
    rewrite Ec, rstrip_cons.
    destruct (PyStr.truthy (PyStr.rstrip r)); simpl; rewrite Ec; reflexivity.
Qed.

Lemma strip_idem s : PyStr.strip (PyStr.strip s) = PyStr.strip s.
Proof.
  unfold PyStr.strip.
  rewrite lstrip_rstrip, lstrip_idem, rstrip_idem. reflexivity.
Qed.

(** ** Further properties: the parser *)

Lemma key_value_stripped line key value :
  key_value line = Some (key, value) -> PyStr.strip value = value.
Proof.
  unfold key_value. destruct (negb (PyStr.contains ":" line)); [discriminate|].
  destruct (PyStr.split1 colon line) as [[k v]|]; [|discriminate].
  intros H. injection H as _ <-. apply strip_idem.
Qed.

Lemma parse_line_family c line :
  parse_line c line =
  match line_family line, key_value line with
  | Some f, Some (_, value) => set_field f value c
  | _, _ => c
  end.
Proof.
  unfold parse_line, line_family.
  destruct (key_value line) as [[key value]|]; [|reflexivity].
  rewrite apply_key_family. destruct (family key); reflexivity.
Qed.

Lemma parse_line_normalised c line :
  normalised c -> normalised (parse_line c line).
Proof.
  intros (Ht & Hm & Hs). rewrite parse_line_family.
  destruct (line_family line) as [f|]; [|repeat split; assumption].
  destruct (key_value line) as [[key value]|] eqn:Hkv;
    [|repeat split; assumption].
  apply key_value_stripped in Hkv.
  destruct f; repeat split; simpl; try assumption.
  unfold mode_of. destruct (PyStr.contains "long" (PyStr.lower value)); auto.
Qed.

Lemma parse_lines_normalised lines c :
  normalised c -> normalised (parse_lines lines c).
Proof.
  revert c. induction lines as [|line lines IH]; intros c Hc; [exact Hc|].
  simpl. apply IH, parse_line_normalised, Hc.
Qed.

(** X1. Every configuration [parse_video_config] returns has a topic that
    is not empty, a mode that is "short" or "long", and a topic and a style
    without blanks at either end. *)
Theorem accepted_config_is_normalised (text : string) (c : Config) :
  parse_video_config text = Ok c ->
  topic c <> ""
  /\ PyStr.strip (topic c) = topic c
  /\ (mode c = "short" \/ mode c = "long")
  /\ PyStr.strip (style c) = style c.
Proof.
  intros Hok. apply parse_video_config_ok in Hok as [-> Hne].
  split; [exact Hne|].
  apply (parse_lines_normalised _ default_config).
  repeat split; auto.
Qed.

Lemma accepted_config_is_normalised_witness :
  topic {| topic := "AI dan kita"; mode := "long"; style := "dark" |} <> ""
  /\ PyStr.strip "AI dan kita" = "AI dan kita"
  /\ ("long" = "short" \/ "long" = "long")
  /\ PyStr.strip "dark" = "dark".
Proof.
  apply (accepted_config_is_normalised
           (text_of_lines ["  TOPIK :  AI dan kita  "; "mode: LONG";
                           "gaya:  dark "])
           {| topic := "AI dan kita"; mode := "long"; style := "dark" |}).
  reflexivity.
Defined.

Lemma parse_lines_recognised lines c :
  parse_lines (List.filter recognised lines) c = parse_lines lines c.
Proof.
  revert c. induction lines as [|line lines IH]; intros c; [reflexivity|].
  simpl. destruct (recognised line) eqn:Hr; simpl.
  - apply IH.
  - rewrite IH. f_equal. rewrite parse_line_family.
    unfold recognised in Hr. destruct (line_family line); [discriminate|].
    reflexivity.
Qed.

(** X2. Lines without a colon and lines whose key is of no family do not
    count: two texts with the same recognised lines, in the same order, get
    the same answer, be it a configuration or the error. *)
Theorem unrecognised_lines_are_ignored (text1 text2 : string) :
  List.filter recognised (config_lines text1)
  = List.filter recognised (config_lines text2) ->
  parse_video_config text1 = parse_video_config text2.
Proof.
  intros H. unfold parse_video_config.
  rewrite <- (parse_lines_recognised (config_lines text1)).
  rewrite <- (parse_lines_recognised (config_lines text2)).
  rewrite H. reflexivity.
Qed.

Lemma unrecognised_lines_are_ignored_witness :
  parse_video_config
    (text_of_lines ["Halo bot!"; "Topik: AI"; "durasi: 5 menit"; "";
                    "Mode: long"; "terima kasih"])
  = parse_video_config (text_of_lines ["Topik: AI"; "Mode: long"]).
Proof.
  apply (unrecognised_lines_are_ignored
           (text_of_lines ["Halo bot!"; "Topik: AI"; "durasi: 5 menit"; "";
                           "Mode: long"; "terima kasih"])
           (text_of_lines ["Topik: AI"; "Mode: long"])).
  reflexivity.
Defined.

Lemma set_field_comm f g v1 v2 c :
  f <> g -> set_field g v2 (set_field f v1 c) = set_field f v1 (set_field g v2 c).
Proof. destruct f, g; intros H; try reflexivity; congruence. Qed.

Lemma parse_line_comm c l1 l2 :
  line_family l1 <> line_family l2 ->
  parse_line (parse_line c l1) l2 = parse_line (parse_line c l2) l1.
Proof.
  intros Hne. rewrite !parse_line_family.
  destruct (line_family l1) as [f|], (line_family l2) as [g|];
    destruct (key_value l1) as [[k1 v1]|], (key_value l2) as [[k2 v2]|];
    try reflexivity.
  apply set_field_comm. congruence.
Qed.

(** X3. The order of two neighbouring lines of different families does not
    matter: swapping them leaves the configuration the loop builds as it
    is.  (Two lines of one family do not commute: the later one wins.) *)
Theorem neighbours_of_different_families_commute
    (before after : list string) (l1 l2 : string) (c : Config) :
  line_family l1 <> line_family l2 ->
  parse_lines (before ++ l1 :: l2 :: after) c
  = parse_lines (before ++ l2 :: l1 :: after) c.
Proof.
  intros Hne. unfold parse_lines. rewrite !fold_left_app. simpl.
  rewrite (parse_line_comm _ l1 l2 Hne). reflexivity.
Qed.

Lemma neighbours_of_different_families_commute_witness :
  parse_lines ["Topik: AI"; "Mode: long"; "Style: dark"] default_config
  = parse_lines ["Topik: AI"; "Style: dark"; "Mode: long"] default_config.
Proof.
  apply (neighbours_of_different_families_commute
           ["Topik: AI"] [] "Mode: long" "Style: dark" default_config).
  discriminate.
Defined.

Lemma contains_char c s :
  PyStr.contains (String c "") s = has_char c s.
Proof.
  induction s as [|a r IH]; [reflexivity|]. simpl. rewrite IH.
  destruct (ascii_dec c a) as [->|Hne].
  - rewrite Ascii.eqb_refl. destruct r; reflexivity.
  - replace (Ascii.eqb a c) with false; [reflexivity|].
    symmetry. apply Ascii.eqb_neq. congruence.
Qed.

Lemma split1_app sep k v :
  has_char sep k = false ->
  PyStr.split1 sep (k ++ String sep v) = Some (k, v).
Proof.
  induction k as [|a r IH]; simpl.
  - intros _. rewrite Ascii.eqb_refl. reflexivity.
  - intros H. apply orb_false_iff in H as [Ha Hr].
    rewrite Ha, (IH Hr). reflexivity.
Qed.

Lemma has_char_app c a b :
  has_char c (a ++ b) = has_char c a || has_char c b.
Proof.
  induction a as [|x r IH]; [reflexivity|]. simpl. rewrite IH.
  apply orb_assoc.
Qed.

(** The key and the value of a line with a key free of colons. *)
Lemma key_value_app k v :
  has_char colon k = false ->
  key_value (k ++ String colon v)
  = Some (PyStr.lower (PyStr.strip k), PyStr.strip v).
Proof.
  intros Hk. unfold key_value.
  change ":" with (String colon "") at 1.
  rewrite contains_char, has_char_app. cbn [has_char].
  rewrite Ascii.eqb_refl, orb_true_r. cbn [negb orb].
  rewrite (split1_app colon k v Hk). reflexivity.
Qed.

Lemma split_no_sep sep a :
  has_char sep a = false -> PyStr.split sep a = [a].
Proof.
  induction a as [|x r IH]; [reflexivity|]. simpl. intros H.
  apply orb_false_iff in H as [Hx Hr]. rewrite Hx, (IH Hr). reflexivity.
Qed.

Lemma split_app sep a b :
  has_char sep a = false ->
  PyStr.split sep (a ++ String sep b) = a :: PyStr.split sep b.
Proof.
  induction a as [|x r IH]; simpl.
  - intros _. rewrite Ascii.eqb_refl. reflexivity.
  - intros H. apply orb_false_iff in H as [Hx Hr].
    rewrite Hx, (IH Hr). reflexivity.
Qed.

Lemma rstrip_app a b :
  PyStr.rstrip (a ++ b) =
  if PyStr.truthy (PyStr.rstrip b) then a ++ PyStr.rstrip b
  else PyStr.rstrip a.
Proof.
  induction a as [|x r IH].
  - change ("" ++ b) with b. change ("" ++ PyStr.rstrip b) with (PyStr.rstrip b).
    destruct (PyStr.rstrip b); reflexivity.
  - change (String x r ++ b) with (String x (r ++ b)).
    rewrite !rstrip_cons, IH.
    destruct (PyStr.truthy (PyStr.rstrip b)) eqn:Eb; [|reflexivity].
    change (String x r ++ PyStr.rstrip b)
      with (String x (r ++ PyStr.rstrip b)).
    destruct (r ++ PyStr.rstrip b) eqn:E; [|reflexivity].
    destruct r; [|discriminate E].
    change ("" ++ PyStr.rstrip b) with (PyStr.rstrip b) in E.
    rewrite E in Eb. discriminate Eb.
Qed.

Lemma strip_blank s : PyStr.rstrip s = "" -> PyStr.strip s = "".
Proof.
  intros H. unfold PyStr.strip. rewrite (rstrip_blank_lstrip s H).
  reflexivity.
Qed.

Lemma strip_of_rstrip s : PyStr.strip (PyStr.rstrip s) = PyStr.strip s.
Proof.
  unfold PyStr.strip. rewrite lstrip_rstrip, rstrip_idem. reflexivity.
Qed.

(** A labelled line of a request, stripped, gives the label as key and the
    stripped text as value; [label] starts with a character that is not a
    blank and has no colon. *)
Lemma labelled_line_key_value a label text :
  PyStr.isspace a = false ->
  has_char colon (String a label) = false ->
  PyStr.rstrip (String a label) = String a label ->
  let line := PyStr.strip (String a label ++ String colon (String " " text)) in
  PyStr.truthy line = true
  /\ key_value line
     = Some (PyStr.lower (String a label), PyStr.strip text).
Proof.
  intros Ha Hc Hl. cbv zeta.
  assert (Hkey : PyStr.strip (String a label) = String a label).
  { unfold PyStr.strip.
    change (PyStr.lstrip (String a label))
      with (if PyStr.isspace a then PyStr.lstrip label else String a label).
    rewrite Ha. exact Hl. }
  assert (Hline :
    PyStr.strip (String a label ++ String colon (String " " text))
    = String a label
      ++ String colon (if PyStr.truthy (PyStr.rstrip text)
                       then String " " (PyStr.rstrip text) else "")).
  { unfold PyStr.strip.
    change (PyStr.lstrip (String a label ++ String colon (String " " text)))
      with (if PyStr.isspace a
            then PyStr.lstrip (label ++ String colon (String " " text))
            else String a label ++ String colon (String " " text)).
    rewrite Ha, rstrip_app, !rstrip_cons.
    change (PyStr.isspace " ") with true.
    change (PyStr.isspace colon) with false.
    destruct (PyStr.truthy (PyStr.rstrip text)); reflexivity. }
  rewrite Hline. split; [reflexivity|].
  rewrite (key_value_app (String a label) _ Hc), Hkey. do 2 f_equal.
  destruct (PyStr.truthy (PyStr.rstrip text)) eqn:Ex.
  - unfold PyStr.strip at 1.
    change (PyStr.lstrip (String " " (PyStr.rstrip text)))
      with (PyStr.lstrip (PyStr.rstrip text)).
    apply strip_of_rstrip.
  - symmetry. apply strip_blank.
    destruct (PyStr.rstrip text); [reflexivity | discriminate].
Qed.

Lemma truthy_not_empty s : s <> "" -> PyStr.truthy s = true.
Proof. destruct s; [congruence | reflexivity]. Qed.

(** X4. A request written in the documented three-line format is parsed
    as written: when none of the three texts has a line break and the topic
    is not blank, the configuration holds the stripped topic, "long" or
    "short" according to the mode text, and the stripped style. *)
Theorem request_text_is_parsed (topic_text mode_text style_text : string) :
  has_char nl topic_text = false ->
  has_char nl mode_text = false ->
  has_char nl style_text = false ->
  PyStr.strip topic_text <> "" ->
  parse_video_config (request_text topic_text mode_text style_text)
  = Ok {| topic := PyStr.strip topic_text;
          mode := mode_of (PyStr.strip mode_text);
          style := PyStr.strip style_text |}.
Proof.
  intros Ht Hm Hs Hne.
  destruct (labelled_line_key_value "T" "opik" topic_text
              eq_refl eq_refl eq_refl) as [T1 K1].
  destruct (labelled_line_key_value "M" "ode" mode_text
              eq_refl eq_refl eq_refl) as [T2 K2].
  destruct (labelled_line_key_value "S" "tyle" style_text
              eq_refl eq_refl eq_refl) as [T3 K3].
  cbv zeta in *.
  set (l1 := "Topik" ++ String colon (String " " topic_text)) in *.
  set (l2 := "Mode" ++ String colon (String " " mode_text)) in *.
  set (l3 := "Style" ++ String colon (String " " style_text)) in *.
  assert (Hlines : config_lines (request_text topic_text mode_text style_text)
                   = [PyStr.strip l1; PyStr.strip l2; PyStr.strip l3]).
  { unfold config_lines, request_text, text_of_lines.
    change (String.concat (String nl "")
              ["Topik: " ++ topic_text; "Mode: " ++ mode_text;
               "Style: " ++ style_text])
      with (l1 ++ String nl (l2 ++ String nl l3)).
    rewrite (split_app nl l1) by exact Ht.
    rewrite (split_app nl l2) by exact Hm.
    rewrite (split_no_sep nl l3) by exact Hs.
    simpl. rewrite T1, T2, T3. reflexivity. }
  clearbody l1 l2 l3.
  assert (Hcfg :
    parse_lines [PyStr.strip l1; PyStr.strip l2; PyStr.strip l3]
      default_config
    = {| topic := PyStr.strip topic_text;
         mode := mode_of (PyStr.strip mode_text);
         style := PyStr.strip style_text |}).
  { change (PyStr.lower "Topik") with "topik" in K1.
    change (PyStr.lower "Mode") with "mode" in K2.
    change (PyStr.lower "Style") with "style" in K3.
    unfold parse_lines. cbn [fold_left]. unfold parse_line.
    rewrite K1, K2, K3. unfold mode_of, apply_key. simpl.
    destruct (PyStr.contains "long" (PyStr.lower (PyStr.strip mode_text)));
      reflexivity. }
  unfold parse_video_config. rewrite Hlines, Hcfg. cbn [topic].
  rewrite (truthy_not_empty _ Hne). reflexivity.
Qed.

Lemma request_text_is_parsed_witness :
  parse_video_config
    (request_text " Teknologi AI: masa depan " "LONG (5 menit)" "")
  = Ok {| topic := "Teknologi AI: masa depan"; mode := "long"; style := "" |}.
Proof.
  apply (request_text_is_parsed " Teknologi AI: masa depan "
           "LONG (5 menit)" "");
    try reflexivity.
  discriminate.
Defined.

(** X5. Keys are matched without regard to case and to blanks around
    them: two lines whose keys have no colon and agree once stripped and
    lower-cased, and whose text after the colon is the same, change a
    configuration in the same way. *)
Theorem key_case_and_blanks_do_not_matter (c : Config) (k1 k2 v : string) :
  has_char colon k1 = false ->
  has_char colon k2 = false ->
  PyStr.lower (PyStr.strip k1) = PyStr.lower (PyStr.strip k2) ->
  parse_line c (k1 ++ String colon v) = parse_line c (k2 ++ String colon v).
Proof.
  intros H1 H2 Hk. unfold parse_line.
  rewrite (key_value_app k1 v H1), (key_value_app k2 v H2), Hk.
  reflexivity.
Qed.

Lemma key_case_and_blanks_do_not_matter_witness :
  parse_line default_config "TOPIK : AI" = parse_line default_config "topik: AI".
Proof.
  apply (key_case_and_blanks_do_not_matter default_config "TOPIK " "topik"
           " AI");
    reflexivity.
Defined.

(** ** Further properties: the rate limiter *)

Lemma can_generate_marked ADMIN_IDS cooldowns t now user_id :
  is_admin ADMIN_IDS user_id = false ->
  fst (can_generate ADMIN_IDS (mark_generated cooldowns t user_id) now
         user_id)
  = negb (bool_decide (now - t < timedelta_hours COOLDOWN_HOURS)).
Proof.
  intros Hna. unfold can_generate, mark_generated.
  rewrite Hna, lookup_insert_eq. case_bool_decide; reflexivity.
Qed.

(** X6. Marking and asking again: once [mark_generated] has recorded the
    time [t] for a user outside the allow-list, [can_generate] denies that
    user at every time less than 24 hours after [t] and allows the user from
    24 hours after [t] on; the answer for every other user is unchanged. *)
Theorem can_generate_after_mark (ADMIN_IDS : list string)
    (cooldowns : gmap Z Z) (t now user_id other : Z) :
  is_admin ADMIN_IDS user_id = false ->
  let marked := mark_generated cooldowns t user_id in
  (fst (can_generate ADMIN_IDS marked now user_id)
   = negb (bool_decide (now - t < timedelta_hours COOLDOWN_HOURS)))
  /\ (other <> user_id ->
      can_generate ADMIN_IDS marked now other
      = can_generate ADMIN_IDS cooldowns now other).
Proof.
  intros Hna marked. split.
  - apply can_generate_marked, Hna.
  - intros Hne. unfold can_generate, marked, mark_generated.
    rewrite lookup_insert_ne by congruence. reflexivity.
Qed.

Lemma can_generate_after_mark_witness :
  fst (can_generate [""] (mark_generated ∅ 1000 7) (1000 + 86399999999) 7)
  = false
  /\ fst (can_generate [""] (mark_generated ∅ 1000 7) (1000 + 86400000000) 7)
     = true
  /\ can_generate [""] (mark_generated ∅ 1000 7) 2000 8
     = can_generate [""] ∅ 2000 8.
Proof.
  split; [|split].
  - exact (proj1 (can_generate_after_mark [""] ∅ 1000
                    (1000 + 86399999999) 7 8 eq_refl)).
  - exact (proj1 (can_generate_after_mark [""] ∅ 1000
                    (1000 + 86400000000) 7 8 eq_refl)).
  - apply (proj2 (can_generate_after_mark [""] ∅ 1000 2000 7 8 eq_refl)).
    discriminate.
Defined.

(** X7. When the clock has not gone back since the recorded time, the
    figure of the waiting notice is a count of tenths from "0.0" to
    "24.0". *)
Theorem hours_left_within_a_day (ADMIN_IDS : list string)
    (cooldowns : gmap Z Z) (now user_id last_time : Z) (figure : string) :
  last_time <= now ->
  cooldowns !! user_id = Some last_time ->
  can_generate ADMIN_IDS cooldowns now user_id
  = (false, WaitNotice figure) ->
  exists tenths,
    figure = PyFloat.render_tenths tenths /\ 0 <= tenths <= 240.
Proof.
  intros Hmono Hlast Hden.
  destruct (is_admin ADMIN_IDS user_id) eqn:Hna.
  { unfold can_generate in Hden. rewrite Hna in Hden. discriminate. }
  destruct (Z_lt_le_dec (now - last_time) (timedelta_hours COOLDOWN_HOURS))
    as [Hlt|Hge].
  2:{ unfold can_generate in Hden. rewrite Hna, Hlast in Hden.
      rewrite bool_decide_eq_false_2 in Hden by lia. discriminate. }
  rewrite (can_generate_denied _ _ _ _ _ Hna Hlast Hlt) in Hden.
  injection Hden as <-. eexists. split; [reflexivity|].
  destruct (hours_left_bounds _ Hlt) as (H0 & _ & Hhi).
  destruct (format_1f_nonneg _ H0) as (_ & Ht & _ & Hth).
  split; [exact Ht|].
  set (el := now - last_time) in *.
  set (t := PyFloat.tenths (hours_left el)) in *.
  unfold exact_hours_left, float_slack in Hhi.
  change (inject_Z COOLDOWN_HOURS) with (24 # 1) in Hhi.
  rewrite (Z.abs_eq el) in Hhi by (unfold el; lia).
  assert (Hel0 : (0 <= el # 3600000000)%Q)
    by (unfold Qle; simpl; unfold el; lia).
  assert (Hel1 : (el # 3600000000 <= 24)%Q).
  { unfold timedelta_hours, COOLDOWN_HOURS in Hlt.
    unfold Qle. simpl. lia. }
  assert (Hq : (t # 10 < 241 # 10)%Q) by (clearbody t el; lra).
  unfold Qlt in Hq. simpl in Hq. lia.
Qed.

Lemma hours_left_within_a_day_witness :
  exists tenths, "23.0" = PyFloat.render_tenths tenths /\ 0 <= tenths <= 240.
Proof.
  apply (hours_left_within_a_day ["12"] {[7 := 0]} 3600000000 7 0 "23.0");
    [discriminate | reflexivity | vm_compute; reflexivity].
Defined.

(** ** Further properties: the allow-list *)

Lemma pretty_N_go_chars (P : ascii -> bool) (x : N) (s : string) :
  (forall d, P (pretty_N_char d) = true) ->
  all_chars P s = true -> all_chars P (pretty_N_go x s) = true.
Proof.
  intros HP. revert s.
  induction (N.lt_wf_0 x) as [x _ IH]. intros s Hs.
  destruct (decide (x = 0)%N) as [->|Hx].
  - rewrite pretty_N_go_0. exact Hs.
  - rewrite pretty_N_go_step by lia. apply IH.
    + apply N.div_lt; lia.
    + simpl. rewrite HP, Hs. reflexivity.
Qed.

Lemma pretty_N_go_not_empty (x : N) (s : string) :
  s <> "" -> pretty_N_go x s <> "".
Proof.
  revert s. induction (N.lt_wf_0 x) as [x _ IH]. intros s Hs.
  destruct (decide (x = 0)%N) as [->|Hx].
  - rewrite pretty_N_go_0. exact Hs.
  - rewrite pretty_N_go_step by lia. apply IH.
    + apply N.div_lt; lia.
    + discriminate.
Qed.

Lemma decimal_pretty_N_char d : decimal_char (pretty_N_char d) = true.
Proof.
  unfold pretty_N_char. repeat case_match; reflexivity.
Qed.

Lemma pretty_positive_chars (p : positive) :
  all_chars decimal_char (pretty (N.pos p)) = true
  /\ pretty (N.pos p) <> "".
Proof.
  unfold pretty, pretty_N. rewrite decide_False by discriminate. split.
  - apply pretty_N_go_chars; [apply decimal_pretty_N_char | reflexivity].
  - rewrite pretty_N_go_step by lia. apply pretty_N_go_not_empty.
    discriminate.
Qed.

(** [str(n)] consists of decimal digits and at most a minus sign, and is
    never empty. *)
Lemma pretty_Z_chars (z : Z) :
  all_chars decimal_char (pretty z) = true /\ pretty z <> "".
Proof.
  destruct z as [|p|p].
  - split; [reflexivity | discriminate].
  - apply (pretty_positive_chars p).
  - destruct (pretty_positive_chars p) as [Hc Hne].
    change (pretty (Z.neg p)) with ("-" ++ pretty (N.pos p)).
    split; [|discriminate].
    change ("-" ++ pretty (N.pos p)) with (String "-" (pretty (N.pos p))).
    simpl. exact Hc.
Qed.

Lemma all_chars_has_char P c s :
  all_chars P s = true -> P c = false -> has_char c s = false.
Proof.
  intros Hs Hc. induction s as [|a r IH]; [reflexivity|].
  simpl in *. apply andb_true_iff in Hs as [Ha Hr].
  rewrite (IH Hr), orb_false_r.
  apply Ascii.eqb_neq. intros ->. congruence.
Qed.

Lemma is_admin_elem_of ADMIN_IDS user_id :
  is_admin ADMIN_IDS user_id = true <-> pretty user_id ∈ ADMIN_IDS.
Proof. unfold is_admin. apply bool_decide_eq_true. Qed.

(** X8. With ADMIN_IDS unset, or set to the empty text, the allow-list is
    the one-element list of the empty text and no user is an
    administrator. *)
Theorem no_admin_without_ADMIN_IDS (user_id : Z) :
  ADMIN_IDS_of_env None = [""]
  /\ ADMIN_IDS_of_env (Some "") = [""]
  /\ is_admin (ADMIN_IDS_of_env None) user_id = false.
Proof.
  split; [reflexivity|]. split; [reflexivity|].
  apply not_true_is_false. rewrite is_admin_elem_of.
  change (ADMIN_IDS_of_env None) with [""].
  rewrite list_elem_of_singleton.
  apply (proj2 (pretty_Z_chars user_id)).
Qed.

Lemma split_concat_commas (entries : list string) :
  entries <> [] ->
  Forall (fun entry => has_char "," entry = false) entries ->
  PyStr.split "," (String.concat "," entries) = entries.
Proof.
  intros Hne Hall. induction Hall as [|entry rest He Hrest IH]; [congruence|].
  destruct rest as [|next rest'].
  - simpl String.concat. apply split_no_sep, He.
  - change (String.concat "," (entry :: next :: rest'))
      with (entry ++ String "," (String.concat "," (next :: rest'))).
    rewrite (split_app "," entry _ He), IH by discriminate. reflexivity.
Qed.

(** X9. Setting ADMIN_IDS to the decimal identities joined by commas
    makes exactly those users administrators. *)
Theorem admins_are_the_listed_ids (ids : list Z) (user_id : Z) :
  ids <> [] ->
  is_admin (ADMIN_IDS_of_env (Some (String.concat "," (map pretty ids))))
    user_id = true
  <-> user_id ∈ ids.
Proof.
  intros Hne. unfold ADMIN_IDS_of_env. simpl default.
  rewrite split_concat_commas.
  - rewrite is_admin_elem_of, list_elem_of_fmap. split.
    + intros (y & Hy & Hin). apply (inj pretty) in Hy. subst. exact Hin.
    + intros Hin. exists user_id. split; [reflexivity | exact Hin].
  - destruct ids; [congruence | discriminate].
  - apply Forall_fmap, Forall_forall. intros z _. simpl.
    apply (all_chars_has_char decimal_char);
      [apply pretty_Z_chars | reflexivity].
Qed.

Lemma admins_are_the_listed_ids_witness :
  (is_admin (ADMIN_IDS_of_env (Some "12,7,-3")) 7 = true <-> 7 ∈ [12; 7; -3])
  /\ (is_admin (ADMIN_IDS_of_env (Some "12,7,-3")) 8 = true
      <-> 8 ∈ [12; 7; -3]).
Proof.
  split.
  - apply (admins_are_the_listed_ids [12; 7; -3] 7). discriminate.
  - apply (admins_are_the_listed_ids [12; 7; -3] 8). discriminate.
Defined.

(** X10. The entries of ADMIN_IDS are compared as they stand: an entry with
    a character that is neither a digit nor a minus sign, such as a blank
    after a comma, matches no user. *)
Theorem undecimal_entry_matches_no_user (entry : string)
    (ADMIN_IDS : list string) (user_id : Z) :
  all_chars decimal_char entry = false ->
  is_admin (entry :: ADMIN_IDS) user_id = is_admin ADMIN_IDS user_id.
Proof.
  intros Hentry. unfold is_admin. apply bool_decide_ext.
  rewrite elem_of_cons. split; [|auto].
  intros [Heq|Hin]; [|exact Hin].
  rewrite <- Heq, (proj1 (pretty_Z_chars user_id)) in Hentry.
  discriminate.
Qed.

Lemma undecimal_entry_matches_no_user_witness :
  is_admin (ADMIN_IDS_of_env (Some " 7,12")) 7 = is_admin ["12"] 7.
Proof.
  apply (undecimal_entry_matches_no_user " 7" ["12"] 7). reflexivity.
Defined.

(** ** Further properties: the command and text handlers *)

Lemma outcome_0 w : outcome 0 w = hd true (transport w).
Proof. unfold outcome. destruct (transport w); reflexivity. Qed.

(** X11. [buatvideo] never touches the cooldown map or the task queue, and
    sets the flag exactly when [can_generate] allows the user and the
    instruction is delivered; in every other case, a denial included, the
    flag is left as it was. *)
Theorem buatvideo_sets_flag_when_allowed (ADMIN_IDS : list string)
    (update : Update) (w : World) :
  let w' := snd (buatvideo ADMIN_IDS update w) in
  let allowed :=
    fst (can_generate ADMIN_IDS (USER_COOLDOWNS w) (clock w)
           (effective_user_id update)) in
  USER_COOLDOWNS w' = USER_COOLDOWNS w
  /\ tasks w' = tasks w
  /\ waiting_for_input w'
     = (if allowed && outcome 0 w then true else waiting_for_input w).
Proof.
  cbv zeta. unfold buatvideo. rewrite outcome_0.
  destruct (can_generate ADMIN_IDS (USER_COOLDOWNS w) (clock w)
              (effective_user_id update)) as [[|] msg]; cbn [negb fst andb].
  - unfold mbind, M_bind. rewrite reply_text_eq. cbv zeta.
    destruct (hd true (transport w)); cbn [snd].
    + unfold set_waiting, waiting_for_input. cbn.
      rewrite lookup_insert_eq. repeat split; reflexivity.
    + repeat split; reflexivity.
  - rewrite reply_text_eq. cbv zeta. repeat split; reflexivity.
Qed.

(** X12. Outside a session [handle_input] does nothing at all.  Inside a
    session it never touches the cooldown map, and it queues one task, with
    the parsed configuration and the sender's identity, exactly when the
    text parses and the confirmation is delivered. *)
Theorem handle_input_queues_task (update : Update) (w : World) :
  let w' := snd (handle_input update w) in
  (waiting_for_input w = false -> handle_input update w = (Ok (), w))
  /\ USER_COOLDOWNS w' = USER_COOLDOWNS w
  /\ (waiting_for_input w = true ->
      tasks w' =
      (tasks w ++
       match parse_video_config (message_text update) with
       | Ok config =>
           if outcome 0 w then [(config, effective_user_id update)] else []
       | Raise _ => []
       end)%list).
Proof.
  cbv zeta. unfold handle_input. rewrite outcome_0.
  destruct (waiting_for_input w); cbn [negb].
  - split; [discriminate|].
    destruct (parse_video_config (message_text update)) as [config|e].
    + unfold mbind, M_bind, set_waiting, create_task.
      rewrite reply_text_eq. cbv zeta. cbn [transport set_user_data].
      destruct (hd true (transport w)); cbn;
        rewrite ?app_nil_r; repeat split; reflexivity.
    + rewrite reply_text_eq. cbv zeta. cbn. rewrite app_nil_r.
      repeat split; reflexivity.
  - repeat split; try reflexivity. discriminate.
Qed.

Lemma handle_input_queues_task_witness :
  tasks
    (snd (handle_input (mkUpdate 7 (text_of_lines ["Topic: foo"]))
            awaiting_world))
  = [({| topic := "foo"; mode := "short"; style := "cinematic" |}, 7)].
Proof.
  apply (proj2 (proj2 (handle_input_queues_task
                         (mkUpdate 7 (text_of_lines ["Topic: foo"]))
                         awaiting_world))).
  reflexivity.
Defined.

(** X13. When the text parses but the confirmation cannot be delivered,
    [handle_input] raises with the flag already cleared and no task queued:
    the request is lost and the user has to start over. *)
Theorem undelivered_confirmation_loses_request (update : Update) (w : World)
    (config : Config) :
  waiting_for_input w = true ->
  parse_video_config (message_text update) = Ok config ->
  outcome 0 w = false ->
  let out := handle_input update w in
  fst out = Raise TransportError
  /\ waiting_for_input (snd out) = false
  /\ tasks (snd out) = tasks w.
Proof.
  intros Hflag Hparse Hout. cbv zeta. rewrite outcome_0 in Hout.
  unfold handle_input. rewrite Hflag, Hparse. cbn [negb].
  unfold mbind, M_bind, set_waiting. rewrite reply_text_eq. cbv zeta.
  cbn [transport set_user_data]. rewrite Hout. cbn.
  unfold waiting_for_input. cbn. rewrite lookup_insert_eq.
  repeat split; reflexivity.
Qed.

Lemma undelivered_confirmation_loses_request_witness :
  fst (handle_input (mkUpdate 7 (text_of_lines ["Topic: foo"]))
         (set_transport [false] awaiting_world))
  = Raise TransportError
  /\ waiting_for_input
       (snd (handle_input (mkUpdate 7 (text_of_lines ["Topic: foo"]))
               (set_transport [false] awaiting_world))) = false
  /\ tasks
       (snd (handle_input (mkUpdate 7 (text_of_lines ["Topic: foo"]))
               (set_transport [false] awaiting_world))) = [].
Proof.
  apply (undelivered_confirmation_loses_request
           (mkUpdate 7 (text_of_lines ["Topic: foo"]))
           (set_transport [false] awaiting_world)
           {| topic := "foo"; mode := "short"; style := "cinematic" |});
    reflexivity.
Defined.


(** ** Further properties: the background task *)



(** X16. When [generate] raises, the run consists of the progress notice,
    the call, one log entry and one failure notice, both carrying the
    generator's exception; the files are left as the generator left them
    and the cooldown map is untouched. *)
Theorem failed_generation_is_logged_and_reported (generator : Generator)
    (config : Config) (user_id : Z) (w : World) (e : exn)
    (fc : gmap string Z * Z) :
  generator (topic config) (mode config) (style config) (files w, clock w)
  = (Raise e, fc) ->
  delivers 1 w = true ->
  let w' := snd (generate_video_task generator config user_id w) in
  events w' =
    (events w ++
     [EvReplyText MsgProgress true;
      EvGenerate (topic config) (mode config) (style config) false;
      EvLogError e;
      EvReplyText (MsgFailed e) (outcome 1 w)])%list
  /\ files w' = fst fc
  /\ USER_COOLDOWNS w' = USER_COOLDOWNS w.
Proof.
  intros Hgen Hdel. cbv zeta.
  unfold generate_video_task, try_except, mbind, M_bind, call_generate,
    log_error, record, outcome, delivers in *.
  rewrite reply_text_eq. cbv zeta.
  destruct w as [cd ud fs ck tr ts ev]. cbn in Hgen, Hdel |- *.
  rewrite Hgen.
  destruct tr as [|[|] [|o2 rest]]; try discriminate Hdel;
    cbn; rewrite reply_text_eq; cbn;
    rewrite <- ?app_assoc; repeat split; reflexivity.
Qed.

Lemma failed_generation_is_logged_and_reported_witness :
  events
    (snd (generate_video_task (failing_generator "boom") sample_config 7
            idle_world))
  = [EvReplyText MsgProgress true;
     EvGenerate "AI" "long" "cinematic" false;
     EvLogError (GeneratorError "boom");
     EvReplyText (MsgFailed (GeneratorError "boom")) true]
  /\ files
       (snd (generate_video_task (failing_generator "boom") sample_config 7
               idle_world)) = ∅
  /\ USER_COOLDOWNS
       (snd (generate_video_task (failing_generator "boom") sample_config 7
               idle_world)) = ∅.
Proof.
  apply (failed_generation_is_logged_and_reported (failing_generator "boom")
           sample_config 7 idle_world (GeneratorError "boom") (∅, 0));
    reflexivity.
Defined.

(** X17. At or above the ceiling the file does not stay on the server:
    once the "too large" notice, which says that it is kept, has been
    delivered, the task deletes the file. *)
Theorem oversized_file_is_deleted (generator : Generator) (config : Config)
    (user_id : Z) (w : World) (r : GenerationResult)
    (fc : gmap string Z * Z) (size : Z) :
  generator (topic config) (mode config) (style config) (files w, clock w)
  = (Ok r, fc) ->
  fst fc !! video_path r = Some size ->
  SIZE_LIMIT <= size ->
  delivers 3 w = true ->
  let w' := snd (generate_video_task generator config user_id w) in
  count is_too_large w' = S (count is_too_large w)
  /\ count (is_unlink (video_path r)) w'
     = S (count (is_unlink (video_path r)) w)
  /\ files w' !! video_path r = None.
Proof.
  intros Hgen Hfile Hsize Hdel. cbv zeta.
  destruct (delivers_3 w Hdel) as [Hdel2 Htold].
  destruct (task_run_above generator config user_id w r fc size
              Hgen Hfile Hsize Hdel2) as (Hev & Hfiles & _).
  cbv zeta in Hev, Hfiles. rewrite Htold in Hev, Hfiles.
  rewrite Hfiles, !(count_events_app _ _ _ _ Hev). simpl.
  rewrite String.eqb_refl. simpl.
  split; [lia|]. split; [lia | apply lookup_delete_eq].
Qed.

Lemma oversized_file_is_deleted_witness :
  count is_too_large
    (snd (generate_video_task VideoGenerator_generate sample_config 7
            (world_with_file 62914560 []))) = 1%nat
  /\ count (is_unlink "dummy.mp4")
       (snd (generate_video_task VideoGenerator_generate sample_config 7
               (world_with_file 62914560 []))) = 1%nat
  /\ files
       (snd (generate_video_task VideoGenerator_generate sample_config 7
               (world_with_file 62914560 []))) !! "dummy.mp4" = None.
Proof.
  apply (oversized_file_is_deleted VideoGenerator_generate sample_config 7
           (world_with_file 62914560 [])
           {| title := "AI"; video_path := "dummy.mp4" |}
           ({["dummy.mp4" := 62914560]}, 0) 62914560);
    try reflexivity.
  discriminate.
Defined.

(** X18. Once [generate] has returned, the user is locked out whatever
    became of the delivery: after the run, [can_generate] denies a user
    outside the allow-list at every time less than 24 hours after the time
    at which the generator finished, and allows the user from then on. *)
Theorem user_is_limited_after_any_returned_generation
    (ADMIN_IDS : list string) (generator : Generator) (config : Config)
    (user_id : Z) (w : World) (r : GenerationResult)
    (fc : gmap string Z * Z) (now : Z) :
  generator (topic config) (mode config) (style config) (files w, clock w)
  = (Ok r, fc) ->
  delivers 1 w = true ->
  is_admin ADMIN_IDS user_id = false ->
  let w' := snd (generate_video_task generator config user_id w) in
  fst (can_generate ADMIN_IDS (USER_COOLDOWNS w') now user_id)
  = negb (bool_decide (now - snd fc < timedelta_hours COOLDOWN_HOURS)).
Proof.
  intros Hgen Hdel Hna. cbv zeta.
  pose proof (quota_after_task generator config user_id w) as Hq.
  cbv zeta in Hq. rewrite Hgen, Hdel in Hq. cbn [fst snd is_ok andb] in Hq.
  apply (f_equal fst) in Hq. cbn [fst quota] in Hq. rewrite Hq.
  apply can_generate_marked, Hna.
Qed.

Lemma user_is_limited_after_any_returned_generation_witness :
  fst (can_generate [""]
         (USER_COOLDOWNS
            (snd (generate_video_task VideoGenerator_generate sample_config
                    7 idle_world)))
         3600000000 7) = false.
Proof.
  exact (user_is_limited_after_any_returned_generation [""]
           VideoGenerator_generate sample_config 7 idle_world
           {| title := "AI"; video_path := "dummy.mp4" |} (∅, 0) 3600000000
           eq_refl eq_refl eq_refl).
Defined.

(** *** What the steps of the task leave alone *)

Section Keeps.
Context {X : Type} (f : World -> X).

Lemma keeps_bind {A B} (m : M A) (k : A -> M B) :
  keeps f m -> (forall a, keeps f (k a)) -> keeps f (m ≫= k).
Proof.
  intros Hm Hk w. unfold mbind, M_bind. specialize (Hm w).
  destruct (m w) as [[a|e] w1]; cbn [snd] in *.
  - rewrite Hk. exact Hm.
  - exact Hm.
Qed.

Lemma keeps_try {A} (body : M A) handler :
  keeps f body -> (forall e, keeps f (handler e)) ->
  keeps f (try_except body handler).
Proof.
  intros Hm Hk w. unfold try_except. specialize (Hm w).
  destruct (body w) as [[a|e] w1]; cbn [snd] in *.
  - exact Hm.
  - rewrite Hk. exact Hm.
Qed.

Hypothesis f_transport : forall t w, f (set_transport t w) = f w.
Hypothesis f_files : forall fc w, f (set_files_clock fc w) = f w.
Hypothesis f_cooldowns : forall m w, f (set_cooldowns m w) = f w.

Lemma keeps_reply_text m :
  (forall o w, f (add_event (EvReplyText m o) w) = f w) ->
  keeps f (reply_text m).
Proof.
  intros He w. rewrite reply_text_eq. cbv zeta. cbn [snd].
  rewrite He. apply f_transport.
Qed.

Lemma keeps_reply_video path caption :
  (forall o w, f (add_event (EvReplyVideo path caption o) w) = f w) ->
  keeps f (reply_video path caption).
Proof.
  intros He w. rewrite reply_video_eq. cbv zeta. cbn [snd].
  rewrite He. apply f_transport.
Qed.

Lemma keeps_stat_size path : keeps f (stat_size path).
Proof. intros w. unfold stat_size. destruct (files w !! path); reflexivity. Qed.

Lemma keeps_with_open_rb {A} path (body : M A) :
  keeps f body -> keeps f (with_open_rb path body).
Proof.
  intros Hb w. unfold with_open_rb.
  destruct (files w !! path); [apply Hb | reflexivity].
Qed.

Lemma keeps_call_generate generator t m s :
  (forall o w, f (add_event (EvGenerate t m s o) w) = f w) ->
  keeps f (call_generate generator t m s).
Proof.
  intros He w. unfold call_generate.
  destruct (generator t m s (files w, clock w)) as [[r|e] fc]; cbn [snd];
    rewrite He; apply f_files.
Qed.

Lemma keeps_do_mark_generated user_id :
  (forall w, f (add_event (EvMarkGenerated user_id) w) = f w) ->
  keeps f (do_mark_generated user_id).
Proof.
  intros He w. unfold do_mark_generated. cbn [snd].
  rewrite He. apply f_cooldowns.
Qed.

Hypothesis f_step :
  forall e w, step_event e = true -> f (add_event e w) = f w.

Lemma keeps_step_text m :
  step_event (EvReplyText m true) = true -> keeps f (reply_text m).
Proof.
  intros Hm. apply keeps_reply_text. intros o w. apply f_step.
  destruct m; try reflexivity; discriminate Hm.
Qed.

(** The delivery step: the attachment below the ceiling, the notice at or
    above it. *)
Lemma keeps_delivery (r : GenerationResult) (file_size : Z) :
  keeps f
    (if bool_decide (file_size < SIZE_LIMIT) then
       reply_text MsgSending ;;
       with_open_rb (video_path r) (reply_video (video_path r) (title r))
     else reply_text MsgTooLarge).
Proof.
  destruct (bool_decide (file_size < SIZE_LIMIT)).
  - apply keeps_bind; [apply keeps_step_text; reflexivity|].
    intros _. apply keeps_with_open_rb, keeps_reply_video.
    intros; apply f_step; reflexivity.
  - apply keeps_step_text; reflexivity.
Qed.

End Keeps.

Lemma keeps_unlink {X} (f : World -> X) path :
  (forall fc w, f (set_files_clock fc w) = f w) ->
  (forall w, f (add_event (EvUnlink path) w) = f w) ->
  keeps f (unlink path).
Proof.
  intros Hfiles He w. unfold unlink, set_files. cbn [snd].
  rewrite He. apply Hfiles.
Qed.

Lemma keeps_handler {X} (f : World -> X) e :
  (forall t w, f (set_transport t w) = f w) ->
  (forall e' w, f (add_event e' w) = f w) ->
  keeps f (log_error e ;; reply_text (MsgFailed e)).
Proof.
  intros Htr He. apply keeps_bind.
  - intros w. unfold log_error, record. cbn [snd]. apply He.
  - intros _. apply keeps_reply_text; [exact Htr | intros; apply He].
Qed.

(** The task leaves alone every observation that none of its calls and
    none of its writes to the transport script, the files, the clock and
    the cooldown map changes. *)
Lemma keeps_task {X} (f : World -> X) generator config user_id :
  (forall t w, f (set_transport t w) = f w) ->
  (forall fc w, f (set_files_clock fc w) = f w) ->
  (forall m w, f (set_cooldowns m w) = f w) ->
  (forall e w, f (add_event e w) = f w) ->
  keeps f (generate_video_task generator config user_id).
Proof.
  intros Htr Hfiles Hcd He. unfold generate_video_task.
  apply keeps_try; [|intros e; apply keeps_handler; assumption].
  apply keeps_bind; [apply keeps_reply_text; auto|]. intros _.
  apply keeps_bind; [apply keeps_call_generate; auto|]. intros r.
  apply keeps_bind; [apply keeps_do_mark_generated; auto|]. intros _.
  apply keeps_bind; [apply keeps_stat_size|]. intros size.
  apply keeps_bind; [apply keeps_reply_text; auto|]. intros _.
  apply keeps_bind; [apply keeps_stat_size|]. intros file_size.
  apply keeps_bind; [apply keeps_delivery; auto|]. intros _.
  apply keeps_unlink; auto.
Qed.

(** X19. The task never touches the session: the user's flag dictionary
    and the task queue are after the run what they were before, whatever
    the generator and the transport do. *)
Theorem task_leaves_session_alone (generator : Generator) (config : Config)
    (user_id : Z) (w : World) :
  let w' := snd (generate_video_task generator config user_id w) in
  user_data w' = user_data w
  /\ waiting_for_input w' = waiting_for_input w
  /\ tasks w' = tasks w.
Proof.
  cbv zeta.
  assert (Hud : user_data
                  (snd (generate_video_task generator config user_id w))
                = user_data w)
    by (apply (keeps_task user_data); reflexivity).
  split; [exact Hud|]. split.
  - unfold waiting_for_input. rewrite Hud. reflexivity.
  - apply (keeps_task tasks); reflexivity.
Qed.

